(** * Video-app-backend: the Express handlers over a GridFS bucket

    A shallow embedding of the request handlers of the service
    (POST /upload, GET /videos, GET /video/:id, PUT /video/:id,
    DELETE /video/:id) and the properties of their responses.

    The handlers are [async] functions wrapped in [try]/[catch] that talk
    to a GridFS bucket.  They are written here in a small monad that
    threads the bucket, records every call made to the store and carries
    thrown exceptions, so that the order of validation and of store calls
    is the order of the source. *)

From Stdlib Require Import ZArith Lia String Ascii DecimalString DecimalPos.
From stdpp Require Import gmap strings list fin_maps.

Local Open Scope Z_scope.
Local Open Scope string_scope.

(** ** JavaScript primitives used by the handlers *)

Module JS.

(** [\d] of a JavaScript regular expression: the ASCII digits only. *)
Definition is_digit (c : ascii) : bool :=
  ((48 <=? nat_of_ascii c)%nat && (nat_of_ascii c <=? 57)%nat)%bool.

Definition digit_value (c : ascii) : Z :=
  Z.of_nat (nat_of_ascii c) - 48.

(** [s.replace(/\D/g, "")]: every character that is not a digit is
    dropped, the digits that remain are kept in order. *)
Fixpoint strip_non_digits (s : string) : string :=
  match s with
  | EmptyString => EmptyString
  | String c s' =>
      if is_digit c then String c (strip_non_digits s')
      else strip_non_digits s'
  end.

Fixpoint digits_value (acc : Z) (s : string) : Z :=
  match s with
  | EmptyString => acc
  | String c s' => digits_value (10 * acc + digit_value c) s'
  end.

(** [Number(s)] for a string [s] of decimal digits: [Number("")] is [0],
    leading zeros are ignored.  The value is exact as long as it does not
    exceed [Number.MAX_SAFE_INTEGER] (2^53 - 1); beyond that JavaScript
    rounds to a double, which this development does not model. *)
Definition Number_of_digits (s : string) : Z := digits_value 0 s.

(** String conversion of an integer in a template literal. *)
Definition to_string (z : Z) : string := NilZero.string_of_int (Z.to_int z).

(** A value that is [undefined] or a string, as a condition: [Some s]
    when it is truthy (a non-empty string), [None] when it is falsy
    ([undefined] or the empty string). *)
Definition truthy_value (v : option string) : option string :=
  match v with
  | Some s => if String.eqb s "" then None else Some s
  | None => None
  end.

(** [a || b] where [a] is [undefined] or a string. *)
Definition or_else (a : option string) (b : string) : string :=
  match truthy_value a with
  | Some s => s
  | None => b
  end.

End JS.

(** ** Identifiers

    [new mongoose.Types.ObjectId(str)] is the driver's constructor, not code
    of this repository.  A path segment is accepted when it is a string of
    24 hexadecimal characters and the constructor throws otherwise.  An
    identifier is kept in its canonical (lower-case) hexadecimal form, which
    is also what [`${file._id}`] prints. *)

Module ObjectId.

Definition in_range (lo hi : nat) (c : ascii) : bool :=
  ((lo <=? nat_of_ascii c)%nat && (nat_of_ascii c <=? hi)%nat)%bool.

Definition is_hex (c : ascii) : bool :=
  (in_range 48 57 c || in_range 97 102 c || in_range 65 70 c)%bool.

Definition lower (c : ascii) : ascii :=
  if in_range 65 70 c then ascii_of_nat (nat_of_ascii c + 32) else c.

Fixpoint all_hex (s : string) : bool :=
  match s with
  | EmptyString => true
  | String c s' => (is_hex c && all_hex s')%bool
  end.

Fixpoint canonical (s : string) : string :=
  match s with
  | EmptyString => EmptyString
  | String c s' => String (lower c) (canonical s')
  end.

Definition well_formed (s : string) : bool :=
  ((String.length s =? 24)%nat && all_hex s)%bool.

Definition invalid_message : string :=
  "input must be a 24 character hex string, 12 byte Uint8Array, or an integer".

(** Modelled from the spec: the identifier constructor of the driver,
    which accepts a well-formed ObjectId string (24 hex characters) and
    throws on any other string. *)
Definition make (s : string) : string + string :=
  if well_formed s then inl (canonical s) else inr invalid_message.

End ObjectId.

(** ** The GridFS bucket

    One document per file in [videos.files], keyed by [_id], and the chunk
    documents of [videos.chunks], keyed by [(files_id, n)]. *)

Record Metadata : Type := { title : string }.

Record FileDoc : Type := {
  file_length : Z;
  file_chunkSize : Z;
  file_uploadDate : Z;
  file_filename : string;
  file_contentType : option string;
  file_metadata : option Metadata
}.

Record Bucket : Type := {
  files : gmap string FileDoc;
  chunks : gmap (string * nat) (list Byte.byte)
}.

(** Cutting a buffer into chunks of [sz] bytes, the last one shorter. *)
Fixpoint chunks_go (sz room : N) (cur : list Byte.byte) (l : list Byte.byte)
  : list (list Byte.byte) :=
  match l with
  | [] => match cur with [] => [] | _ => [rev cur] end
  | b :: l' =>
      if (room =? 0)%N then rev cur :: chunks_go sz (sz - 1) [b] l'
      else chunks_go sz (room - 1) (b :: cur) l'
  end.

Definition chunks_of (sz : N) (l : list Byte.byte) : list (list Byte.byte) :=
  chunks_go sz sz [] l.

Fixpoint insert_chunks (id : string) (n : nat) (cs : list (list Byte.byte))
  (m : gmap (string * nat) (list Byte.byte)) : gmap (string * nat) (list Byte.byte) :=
  match cs with
  | [] => m
  | c :: cs' => insert_chunks id (S n) cs' (<[(id, n) := c]> m)
  end.

Definition chunkSizeBytes : Z := 1048576.

Definition store_file (id : string) (name : string) (t : string) (date : Z)
  (buf : list Byte.byte) (b : Bucket) : Bucket :=
  {| files := <[id := {| file_length := Z.of_nat (length buf);
                         file_chunkSize := chunkSizeBytes;
                         file_uploadDate := date;
                         file_filename := name;
                         file_contentType := None;
                         file_metadata := Some {| title := t |} |}]> (files b);
     chunks := insert_chunks id 0 (chunks_of (Z.to_N chunkSizeBytes) buf) (chunks b) |}.

Definition remove_file (id : string) (b : Bucket) : Bucket :=
  {| files := delete id (files b);
     chunks := filter (fun kv => fst (fst kv) <> id) (chunks b) |}.

Definition set_title (id : string) (t : string) (b : Bucket) : Bucket :=
  {| files := alter (fun d => {| file_length := file_length d;
                                 file_chunkSize := file_chunkSize d;
                                 file_uploadDate := file_uploadDate d;
                                 file_filename := file_filename d;
                                 file_contentType := file_contentType d;
                                 file_metadata := Some {| title := t |} |}) id (files b);
     chunks := chunks b |}.

(** ** The world a handler runs in *)

(** The calls a handler makes to the store, in the order it makes them. *)
Inductive StoreOp : Type :=
| OpFindAll
| OpFind (id : string)
| OpUpdateTitle (id : string) (t : string)
| OpDelete (id : string)
| OpUpload (name : string) (t : string).

(** How the store fails, per kind of call: [Some msg] makes the call throw
    (or its promise reject) with message [msg].  An upload can fail when the
    stream is opened ([upload_throws], for instance while the bucket handle
    is still undefined) or later through the stream's error event
    ([upload_errors]). *)
Record Faults : Type := {
  find_fault : option string;
  update_fault : option string;
  delete_fault : option string;
  upload_throws : option string;
  upload_errors : option string
}.

Definition no_faults : Faults :=
  {| find_fault := None; update_fault := None; delete_fault := None;
     upload_throws := None; upload_errors := None |}.

Record World : Type := {
  bucket : Bucket;
  faults : Faults;
  gen_id : nat -> string;   (* the identifiers the driver will generate *)
  uploads : nat;            (* how many it has generated *)
  now : Z;
  trace : list StoreOp      (* most recent call first *)
}.

Definition with_bucket (b : Bucket) (w : World) : World :=
  {| bucket := b; faults := faults w; gen_id := gen_id w;
     uploads := uploads w; now := now w; trace := trace w |}.

Definition log (op : StoreOp) (w : World) : World :=
  {| bucket := bucket w; faults := faults w; gen_id := gen_id w;
     uploads := uploads w; now := now w; trace := op :: trace w |}.

Definition next_upload (w : World) : World :=
  {| bucket := bucket w; faults := faults w; gen_id := gen_id w;
     uploads := S (uploads w); now := now w; trace := trace w |}.

(** ** The handler monad: state, and exceptions with a message *)

Inductive Outcome (A : Type) : Type :=
| Returned (a : A)
| Thrown (msg : string).
Arguments Returned {A} a.
Arguments Thrown {A} msg.

Definition M (A : Type) : Type := World -> Outcome A * World.

Definition ret {A} (a : A) : M A := fun w => (Returned a, w).

Definition throw {A} (msg : string) : M A := fun w => (Thrown msg, w).

Definition bind {A B} (m : M A) (k : A -> M B) : M B :=
  fun w => match m w with
           | (Returned a, w') => k a w'
           | (Thrown msg, w') => (Thrown msg, w')
           end.

Notation "'do' x <- m ; k" := (bind m (fun x => k))
  (at level 10, x name, m at level 100, k at level 200).
Notation "'run' m ; k" := (bind m (fun _ => k))
  (at level 10, m at level 100, k at level 200).

Definition call (op : StoreOp) (fault : Faults -> option string) : M unit :=
  fun w => let w' := log op w in
           match fault (faults w') with
           | Some msg => (Thrown msg, w')
           | None => (Returned tt, w')
           end.

(** [await gridFSBucket.find().toArray()] *)
Definition find_all : M (list (string * FileDoc)) :=
  run call OpFindAll find_fault;
  fun w => (Returned (map_to_list (files (bucket w))), w).

(** [await gridFSBucket.find({ _id: fileId }).toArray()] *)
Definition find_by_id (id : string) : M (list (string * FileDoc)) :=
  run call (OpFind id) find_fault;
  fun w => (Returned (match files (bucket w) !! id with
                      | Some d => [(id, d)]
                      | None => []
                      end), w).

(** [await conn.db.collection("videos.files").updateOne({ _id },
    { $set: { "metadata.title": title } })] *)
Definition update_title (id : string) (t : string) : M unit :=
  run call (OpUpdateTitle id t) update_fault;
  fun w => (Returned tt, with_bucket (set_title id t (bucket w)) w).

(** [await gridFSBucket.delete(fileId)]: the file document and all its
    chunks go; the driver throws when there is no such file. *)
Definition bucket_delete (id : string) : M unit :=
  run call (OpDelete id) delete_fault;
  fun w => match files (bucket w) !! id with
           | Some _ => (Returned tt, with_bucket (remove_file id (bucket w)) w)
           | None => (Thrown ("File not found for id " ++ id), w)
           end.

(** The outcome of piping a buffer into an upload stream: the [finish]
    event with the new identifier, or the [error] event. *)
Inductive UploadEvent : Type :=
| Finish (id : string)
| Error (msg : string).

(** [gridFSBucket.openUploadStream(name, { metadata: { title },
    chunkSizeBytes: 1048576 })] followed by [readableStream.pipe]. *)
Definition upload_stream (name : string) (t : string) (buf : list Byte.byte)
  : M UploadEvent :=
  run call (OpUpload name t) upload_throws;
  fun w => match upload_errors (faults w) with
           | Some msg => (Returned (Error msg), w)
           | None =>
               let id := gen_id w (uploads w) in
               (Returned (Finish id),
                next_upload (with_bucket (store_file id name t (now w) buf (bucket w)) w))
           end.

(** ** Requests and responses *)

Record UploadedFile : Type := {
  originalname : string;
  buffer : list Byte.byte
}.

Record Request : Type := {
  params_id : string;               (* req.params.id *)
  body_title : option string;       (* req.body.title *)
  req_file : option UploadedFile;   (* req.file *)
  headers_range : option string     (* req.headers.range *)
}.

Record VideoEntry : Type := {
  entry_id : string;
  entry_filename : string;
  entry_length : Z;
  entry_contentType : option string;
  entry_uploadDate : Z;
  entry_videoUrl : string
}.

Inductive Body : Type :=
| ErrorBody (error : string) (details : option string)
| MessageBody (message : string) (fileId : option string)
| ListBody (videoList : list VideoEntry)
| StreamBody (fileId : string) (start : Z) (end_ : Z).

(** [headers] holds what the handler sets itself with [res.set]. *)
Record Response : Type := {
  status : Z;
  headers : list (string * string);
  body : Body
}.

Definition json (code : Z) (b : Body) : Response :=
  {| status := code; headers := []; body := b |}.

(** A handler: the body of the [try] block and the [catch] block, which
    always answers. *)
Definition handle (m : M Response) (on_error : string -> Response)
  : World -> Response * World :=
  fun w => match m w with
           | (Returned r, w') => (r, w')
           | (Thrown msg, w') => (on_error msg, w')
           end.

Definition new_ObjectId (s : string) : M string :=
  match ObjectId.make s with
  | inl id => ret id
  | inr msg => throw msg
  end.

Definition undefined_title : string :=
  "Cannot read properties of undefined (reading 'title')".

(** [doc.metadata.title] *)
Definition metadata_title (d : FileDoc) : M string :=
  match file_metadata d with
  | Some md => ret (title md)
  | None => throw undefined_title
  end.

(** ** POST /upload *)

Definition post_upload (req : Request) : World -> Response * World :=
  handle
    (let title := body_title req in
     match JS.truthy_value title, req_file req with
     | Some t, Some f =>
         do ev <- upload_stream (originalname f) t (buffer f);
         match ev with
         | Finish id =>
             ret (json 200 (MessageBody "Video uploaded successfully!" (Some id)))
         | Error _ => ret (json 500 (ErrorBody "Failed to upload video" None))
         end
     | _, _ => ret (json 400 (ErrorBody "Title and video file are required!" None))
     end)
    (fun _ => json 500 (ErrorBody "Internal Server Error" None)).

(** ** GET /videos *)

Definition video_url (id : string) : string :=
  "https://video-app-backend-1.onrender.com/video/" ++ id.

Fixpoint video_list (fs : list (string * FileDoc)) : M (list VideoEntry) :=
  match fs with
  | [] => ret []
  | (id, f) :: fs' =>
      do t <- metadata_title f;
      do rest <- video_list fs';
      ret ({| entry_id := id;
              entry_filename := t;
              entry_length := file_length f;
              entry_contentType := file_contentType f;
              entry_uploadDate := file_uploadDate f;
              entry_videoUrl := video_url id |} :: rest)
  end.

Definition get_videos : World -> Response * World :=
  handle
    (do fs <- find_all;
     match fs with
     | [] => ret (json 404 (ErrorBody "No videos found" None))
     | _ => do videoList <- video_list fs;
            ret (json 200 (ListBody videoList))
     end)
    (fun msg => json 500 (ErrorBody msg None)).

(** ** GET /video/:id *)

Definition CHUNK_SIZE : Z := 10 ^ 6.

Definition partial_content (fileId : string) (start end_ videoSize : Z) : Response :=
  let contentLength := end_ - start + 1 in
  {| status := 206;
     headers :=
       [ ("Content-Range",
          "bytes " ++ JS.to_string start ++ "-" ++ JS.to_string end_
                   ++ "/" ++ JS.to_string videoSize);
         ("Accept-Ranges", "bytes");
         ("Content-Length", JS.to_string contentLength);
         ("Content-Type", "video/mp4") ];
     body := StreamBody fileId start end_ |}.

Definition get_video (req : Request) : World -> Response * World :=
  handle
    (do fileId <- new_ObjectId (params_id req);
     do file <- find_by_id fileId;
     match file with
     | [] => ret (json 404 (ErrorBody "Video not found" None))
     | (_, file0) :: _ =>
         let videoSize := file_length file0 in
         match JS.truthy_value (headers_range req) with
         | None => ret (json 400 (ErrorBody "Requires Range header" None))
         | Some range =>
             let start := JS.Number_of_digits (JS.strip_non_digits range) in
             let end_ := Z.min (start + CHUNK_SIZE) (videoSize - 1) in
             ret (partial_content fileId start end_ videoSize)
         end
     end)
    (fun _ => json 500 (ErrorBody "Video not found" None)).

(** ** PUT /video/:id *)

Definition put_video (req : Request) : World -> Response * World :=
  handle
    (do fileId <- new_ObjectId (params_id req);
     let title := body_title req in
     do file <- find_by_id fileId;
     match file with
     | [] => ret (json 404 (ErrorBody "Video not found" None))
     | (_, file0) :: _ =>
         run (match JS.truthy_value title with
              | Some t => update_title fileId t
              | None => ret tt
              end);
         match req_file req with
         | Some f =>
             run bucket_delete fileId;
             do t <- (match JS.truthy_value title with
                      | Some t => ret t
                      | None => metadata_title file0
                      end);
             do ev <- upload_stream (originalname f) t (buffer f);
             match ev with
             | Finish id =>
                 ret (json 200 (MessageBody "Video replaced successfully!" (Some id)))
             | Error _ =>
                 ret (json 500 (ErrorBody "Failed to upload new video" None))
             end
         | None => ret (json 200 (MessageBody "Metadata updated successfully!" None))
         end
     end)
    (fun msg => json 500 (ErrorBody "Failed to replace video" (Some msg))).

(** ** DELETE /video/:id *)

Definition delete_video (req : Request) : World -> Response * World :=
  handle
    (do fileId <- new_ObjectId (params_id req);
     do file <- find_by_id fileId;
     match file with
     | [] => ret (json 404 (ErrorBody "Video not found" None))
     | _ :: _ =>
         run bucket_delete fileId;
         ret (json 200 (MessageBody "Video deleted successfully" None))
     end)
    (fun _ => json 500 (ErrorBody "Failed to delete video" None)).

(** * The service as a whole *)

Inductive Call : Type :=
| PostUpload (req : Request)
| GetVideos
| GetVideo (req : Request)
| PutVideo (req : Request)
| DeleteVideo (req : Request).

Definition serve (c : Call) : World -> Response * World :=
  match c with
  | PostUpload req => post_upload req
  | GetVideos => get_videos
  | GetVideo req => get_video req
  | PutVideo req => put_video req
  | DeleteVideo req => delete_video req
  end.

(** The world after a sequence of requests, served one after the other. *)
Fixpoint serve_all (cs : list Call) (w : World) : World :=
  match cs with
  | [] => w
  | c :: cs' => serve_all cs' (snd (serve c w))
  end.

(** * Vocabulary of the properties *)

(** [returns m Q]: every value the computation [m] returns satisfies [Q]. *)
Definition returns {A} (m : M A) (Q : A -> Prop) : Prop :=
  forall (w : World) (a : A) (w' : World), m w = (Returned a, w') -> Q a.

(** [preserves I m]: running [m] keeps the invariant [I] of the world,
    whether it returns or throws. *)
Definition preserves {A} (I : World -> Prop) (m : M A) : Prop :=
  forall w : World, I w -> I (snd (m w)).

(** A response that is a success, or an error with an [error] field and
    no [details]. *)
Definition plain_answer (r : Response) : Prop :=
  status r = 200 \/ status r = 206 \/ exists e : string, body r = ErrorBody e None.

(** A response that is a success, or an error with an [error] field. *)
Definition structured_answer (r : Response) : Prop :=
  status r = 200 \/ status r = 206 \/
  exists (e : string) (d : option string), body r = ErrorBody e d.

(** [gone id w]: no file document and no chunk of [id] is in the bucket,
    the driver will not issue [id] from now on, and lookups work. *)
Definition gone (id : string) (w : World) : Prop :=
  files (bucket w) !! id = None /\
  (forall n : nat, chunks (bucket w) !! (id, n) = None) /\
  (forall n : nat, (uploads w <= n)%nat -> gen_id w n <> id) /\
  find_fault (faults w) = None.

(** A string made of decimal digits only. *)
Fixpoint all_digits (s : string) : bool :=
  match s with
  | EmptyString => true
  | String c s' => (JS.is_digit c && all_digits s')%bool
  end.

(** ** Sample requests and worlds *)

Definition sample_id : string := "65f0c1a2b3c4d5e6f7a8b9c0".

Definition unknown_id : string := "000000000000000000000000".

Definition first_id : string := "000000000000000000000010".

Definition sample_doc (len : Z) : FileDoc :=
  {| file_length := len;
     file_chunkSize := chunkSizeBytes;
     file_uploadDate := 1700000000000;
     file_filename := "clip.mp4";
     file_contentType := None;
     file_metadata := Some {| title := "Holiday" |} |}.

Definition empty_bucket : Bucket := {| files := ∅; chunks := ∅ |}.

(** A world without faults whose driver issues the identifiers
    [000000000000000000000010], [...11], and so on. *)
Definition world_of (b : Bucket) : World :=
  {| bucket := b; faults := no_faults;
     gen_id := fun n => ObjectId.canonical ("0000000000000000000000" ++ JS.to_string (Z.of_nat n + 10));
     uploads := 0; now := 1700000000000; trace := [] |}.

(** The file document of a blob of [len] bytes under [sample_id]; the
    range handler reads nothing else of the bucket. *)
Definition sample_world (len : Z) : World :=
  world_of {| files := {[ sample_id := sample_doc len ]}; chunks := ∅ |}.

Definition with_faults (f : Faults) (w : World) : World :=
  {| bucket := bucket w; faults := f; gen_id := gen_id w;
     uploads := uploads w; now := now w; trace := trace w |}.

Definition find_fails (msg : string) : Faults :=
  {| find_fault := Some msg; update_fault := None; delete_fault := None;
     upload_throws := None; upload_errors := None |}.

Definition range_request (id : string) (range : option string) : Request :=
  {| params_id := id; body_title := None; req_file := None; headers_range := range |}.

Definition clip : UploadedFile :=
  {| originalname := "clip.mp4"; buffer := [Byte.x01; Byte.x02; Byte.x03] |}.

Definition upload_request (t : option string) (f : option UploadedFile) : Request :=
  {| params_id := ""; body_title := t; req_file := f; headers_range := None |}.

Definition replace_request (id : string) (t : option string) : Request :=
  {| params_id := id; body_title := t; req_file := Some clip; headers_range := None |}.

(** A bucket with one blob of three bytes, written by the service itself. *)
Definition one_blob_world : World :=
  snd (post_upload (upload_request (Some "Holiday") (Some clip)) (world_of empty_bucket)).

(** ** Invariants of handler code

    [triple I m F]: run from a world satisfying the invariant [I], the
    computation [m] ends in a world satisfying [I], whether it returns or
    throws, and a value it returns satisfies [F]. *)

Definition triple {A} (I : World -> Prop) (m : M A) (F : A -> Prop) : Prop :=
  forall w : World, I w ->
    match m w with
    | (Returned a, w') => I w' /\ F a
    | (Thrown _, w') => I w'
    end.

(** Postconditions on returned values: none, a non-empty title, file
    documents that all carry a non-empty title. *)
Definition any {A} (a : A) : Prop := True.

Definition good_title (t : string) : Prop := t <> "".

Definition good_docs (fs : list (string * FileDoc)) : Prop :=
  forall p : string * FileDoc, p ∈ fs ->
    exists md : Metadata, file_metadata (snd p) = Some md /\ title md <> "".

(** Every file document of the bucket has metadata with a non-empty title. *)
Definition titled (b : Bucket) : Prop :=
  forall (id : string) (d : FileDoc),
    files b !! id = Some d ->
    exists md : Metadata, file_metadata d = Some md /\ title md <> "".

(** A titled bucket behind a store whose lookups work. *)
Definition listable (w : World) : Prop :=
  titled (bucket w) /\ find_fault (faults w) = None.

(** The entry GET /videos builds for the file document [f] stored under
    [id], once its title [t] has been read. *)
Definition entry_of (id : string) (f : FileDoc) (t : string) : VideoEntry :=
  {| entry_id := id;
     entry_filename := t;
     entry_length := file_length f;
     entry_contentType := file_contentType f;
     entry_uploadDate := file_uploadDate f;
     entry_videoUrl := video_url id |}.

(** The document [d] with its title set to [t], everything else kept. *)
Definition retitled (t : string) (d : FileDoc) : FileDoc :=
  {| file_length := file_length d;
     file_chunkSize := file_chunkSize d;
     file_uploadDate := file_uploadDate d;
     file_filename := file_filename d;
     file_contentType := file_contentType d;
     file_metadata := Some {| title := t |} |}.


(** A file document written by another tool, without metadata. *)
Definition untitled_doc : FileDoc :=
  {| file_length := 7;
     file_chunkSize := 261120;
     file_uploadDate := 1690000000000;
     file_filename := "raw.bin";
     file_contentType := None;
     file_metadata := None |}.

Definition second_id : string := "65f0c1a2b3c4d5e6f7a8b9c1".

Definition mixed_world : World :=
  world_of {| files := <[second_id := untitled_doc]> {[ sample_id := sample_doc 100 ]};
              chunks := ∅ |}.

Definition upload_errors_with (msg : string) : Faults :=
  {| find_fault := None; update_fault := None; delete_fault := None;
     upload_throws := None; upload_errors := Some msg |}.

Definition upload_throws_with (msg : string) : Faults :=
  {| find_fault := None; update_fault := None; delete_fault := None;
     upload_throws := Some msg; upload_errors := None |}.

Definition delete_fails (msg : string) : Faults :=
  {| find_fault := None; update_fault := None; delete_fault := Some msg;
     upload_throws := None; upload_errors := None |}.

Definition put_request (id : string) (t : option string) (f : option UploadedFile) : Request :=
  {| params_id := id; body_title := t; req_file := f; headers_range := None |}.

(** * Properties *)

(** ** Unfolding the handlers *)

Ltac unfold_handler :=
  unfold post_upload, get_videos, get_video, put_video, delete_video,
    new_ObjectId, find_by_id, find_all, update_title, bucket_delete,
    upload_stream, metadata_title, call, handle, bind, ret, throw, json.

Lemma well_formed_make (s : string) :
  ObjectId.well_formed s = true -> ObjectId.make s = inl (ObjectId.canonical s).
Proof. unfold ObjectId.make. intros ->. reflexivity. Qed.

Lemma malformed_make (s : string) :
  ObjectId.well_formed s = false -> ObjectId.make s = inr ObjectId.invalid_message.
Proof. unfold ObjectId.make. intros ->. reflexivity. Qed.

(** What GET /video/:id answers once the identifier is accepted and the
    file document found. *)
Lemma get_video_found (req : Request) (w : World) (id : string) (d : FileDoc) :
  ObjectId.make (params_id req) = inl id ->
  find_fault (faults w) = None ->
  files (bucket w) !! id = Some d ->
  get_video req w =
    (match JS.truthy_value (headers_range req) with
     | None => json 400 (ErrorBody "Requires Range header" None)
     | Some range =>
         let start := JS.Number_of_digits (JS.strip_non_digits range) in
         partial_content id start
           (Z.min (start + CHUNK_SIZE) (file_length d - 1)) (file_length d)
     end,
     log (OpFind id) w).
Proof.
  intros Hid Hf Hd. unfold_handler. rewrite Hid. simpl.
  rewrite Hf. simpl. rewrite Hd.
  destruct (JS.truthy_value (headers_range req)); reflexivity.
Qed.

Lemma get_video_missing (req : Request) (w : World) (id : string) :
  ObjectId.make (params_id req) = inl id ->
  find_fault (faults w) = None ->
  files (bucket w) !! id = None ->
  get_video req w = (json 404 (ErrorBody "Video not found" None), log (OpFind id) w).
Proof.
  intros Hid Hf Hd. unfold_handler. rewrite Hid. simpl.
  rewrite Hf. simpl. rewrite Hd. reflexivity.
Qed.

Lemma sample_id_make : ObjectId.make sample_id = inl sample_id.
Proof. reflexivity. Qed.

Lemma sample_lookup (len : Z) :
  files (bucket (sample_world len)) !! sample_id = Some (sample_doc len).
Proof. apply lookup_singleton_eq. Qed.

Lemma get_video_sample (len : Z) (range : string) :
  JS.truthy_value (Some range) = Some range ->
  fst (get_video (range_request sample_id (Some range)) (sample_world len)) =
    let start := JS.Number_of_digits (JS.strip_non_digits range) in
    partial_content sample_id start (Z.min (start + CHUNK_SIZE) (len - 1)) len.
Proof.
  intros Hr.
  rewrite (get_video_found (range_request sample_id (Some range)) (sample_world len)
             sample_id (sample_doc len) sample_id_make eq_refl (sample_lookup len)).
  cbn [fst range_request headers_range]. rewrite Hr. reflexivity.
Qed.

(** ** The serving window *)

(** The inclusive end offset the handler announces and asks the store for
    is [min(start + 1000000, L - 1)]: whenever the window, not the length,
    is the limit, the announced range holds 1,000,001 bytes. *)
Lemma window_end (s L : Z) :
  s + CHUNK_SIZE <= L - 1 ->
  Z.min (s + CHUNK_SIZE) (L - 1) = s + 1000000 /\
  Z.min (s + CHUNK_SIZE) (L - 1) - s + 1 = 1000001.
Proof. unfold CHUNK_SIZE. intros H. rewrite Z.min_l by exact H. lia. Qed.

(** C1: for a 2,500,000-byte blob, [Range: bytes=1000000-] is answered 206
    with Content-Range [bytes 1000000-2000000/2500000] and Content-Length
    1000001: the end offset is [start + 1000000], one byte past the
    1,000,000-byte window, and not [1999999]. *)
Theorem range_window_off_by_one :
  fst (get_video (range_request sample_id (Some "bytes=1000000-")) (sample_world 2500000)) =
    {| status := 206;
       headers := [ ("Content-Range", "bytes 1000000-2000000/2500000");
                    ("Accept-Ranges", "bytes");
                    ("Content-Length", "1000001");
                    ("Content-Type", "video/mp4") ];
       body := StreamBody sample_id 1000000 2000000 |}.
Proof. rewrite get_video_sample by reflexivity. vm_compute. reflexivity. Qed.

(** The same for any blob and any start: when the window is the limit, the
    handler announces [start + 1000000] as the inclusive end. *)
Lemma get_video_window (req : Request) (w : World) (id range : string) (d : FileDoc) :
  ObjectId.make (params_id req) = inl id ->
  find_fault (faults w) = None ->
  files (bucket w) !! id = Some d ->
  JS.truthy_value (headers_range req) = Some range ->
  JS.Number_of_digits (JS.strip_non_digits range) + CHUNK_SIZE <= file_length d - 1 ->
  body (fst (get_video req w)) =
    StreamBody id (JS.Number_of_digits (JS.strip_non_digits range))
                  (JS.Number_of_digits (JS.strip_non_digits range) + 1000000).
Proof.
  intros Hid Hf Hd Hr Hle.
  rewrite (get_video_found req w id d Hid Hf Hd). cbn [fst]. rewrite Hr.
  cbn [partial_content body]. f_equal.
  destruct (window_end _ _ Hle) as [-> _]. reflexivity.
Qed.

(** ** Parsing the Range header *)

Example strip_examples :
  JS.strip_non_digits "bytes=1000000-" = "1000000" /\
  JS.strip_non_digits "bytes=100-200" = "100200" /\
  JS.strip_non_digits "bytes=-" = "" /\
  JS.Number_of_digits "" = 0 /\
  JS.Number_of_digits "007" = 7.
Proof. repeat split. Qed.

Example to_string_examples :
  JS.to_string 1999999 = "1999999" /\ JS.to_string 0 = "0" /\ JS.to_string (-50) = "-50".
Proof. repeat split. Qed.

Lemma digit_value_bounds (c : ascii) :
  JS.is_digit c = true -> 0 <= JS.digit_value c <= 9.
Proof.
  unfold JS.is_digit, JS.digit_value. intros H.
  apply andb_prop in H as [H1 H2].
  apply Nat.leb_le in H1. apply Nat.leb_le in H2. lia.
Qed.

Lemma strip_app (s t : string) :
  JS.strip_non_digits (s ++ t) = JS.strip_non_digits s ++ JS.strip_non_digits t.
Proof.
  induction s as [|c s IH]; simpl; [reflexivity|].
  destruct (JS.is_digit c); simpl; rewrite IH; reflexivity.
Qed.

Lemma strip_all_digits (s : string) :
  all_digits s = true -> JS.strip_non_digits s = s.
Proof.
  induction s as [|c s IH]; simpl; [reflexivity|].
  intros H. apply andb_prop in H as [Hc Hs]. rewrite Hc, IH by exact Hs. reflexivity.
Qed.

Lemma strip_is_all_digits (s : string) : all_digits (JS.strip_non_digits s) = true.
Proof.
  induction s as [|c s IH]; simpl; [reflexivity|].
  destruct (JS.is_digit c) eqn:Hc; simpl; [rewrite Hc|]; exact IH.
Qed.



(** With a closed range the digits of both ends run together. *)
Lemma start_of_closed_range (a b : string) :
  all_digits a = true -> all_digits b = true ->
  JS.Number_of_digits (JS.strip_non_digits ("bytes=" ++ a ++ "-" ++ b)) =
    JS.Number_of_digits (a ++ b).
Proof.
  intros Ha Hb.
  rewrite !strip_app, (strip_all_digits a Ha), (strip_all_digits b Hb). reflexivity.
Qed.

Lemma digits_value_nonneg (s : string) :
  forall acc : Z, 0 <= acc -> all_digits s = true -> 0 <= JS.digits_value acc s.
Proof.
  induction s as [|c s IH]; simpl; intros acc Hacc H; [exact Hacc|].
  apply andb_prop in H as [Hc Hs].
  apply IH; [|exact Hs]. pose proof (digit_value_bounds c Hc). lia.
Qed.

(** The start parsed from a header is never negative: a sign is not a
    digit and is dropped with the rest. *)
Lemma start_nonneg (range : string) :
  0 <= JS.Number_of_digits (JS.strip_non_digits range).
Proof.
  unfold JS.Number_of_digits. apply digits_value_nonneg; [lia|].
  apply strip_is_all_digits.
Qed.

(** C2: the start offset is the number formed by all the digits of the
    header, not its leading numeric token: for [bytes=100-200] the handler
    serves from 100200, and a header with no digit at all, [bytes=-], is
    not rejected but served from offset 0 with status 206. *)
Theorem range_start_runs_digits_together :
  body (fst (get_video (range_request sample_id (Some "bytes=100-200")) (sample_world 2500000)))
    = StreamBody sample_id 100200 1100200 /\
  status (fst (get_video (range_request sample_id (Some "bytes=100-200")) (sample_world 2500000)))
    = 206 /\
  body (fst (get_video (range_request sample_id (Some "bytes=-")) (sample_world 2500000)))
    = StreamBody sample_id 0 1000000 /\
  status (fst (get_video (range_request sample_id (Some "bytes=-")) (sample_world 2500000)))
    = 206.
Proof.
  rewrite !get_video_sample by reflexivity. repeat split; vm_compute; reflexivity.
Qed.

(** ** A start at or beyond the end of the blob *)

Lemma get_video_start_beyond (req : Request) (w : World) (id range : string) (d : FileDoc) :
  ObjectId.make (params_id req) = inl id ->
  find_fault (faults w) = None ->
  files (bucket w) !! id = Some d ->
  JS.truthy_value (headers_range req) = Some range ->
  file_length d <= JS.Number_of_digits (JS.strip_non_digits range) ->
  let start := JS.Number_of_digits (JS.strip_non_digits range) in
  fst (get_video req w) = partial_content id start (file_length d - 1) (file_length d) /\
  status (fst (get_video req w)) = 206 /\
  (file_length d - 1) - start + 1 <= 0.
Proof.
  intros Hid Hf Hd Hr Hle start.
  rewrite (get_video_found req w id d Hid Hf Hd). cbn [fst]. rewrite Hr.
  cbv zeta. fold start. rewrite Z.min_r by (unfold CHUNK_SIZE; lia).
  repeat split. lia.
Qed.

(** C3: on a blob of 100 bytes, [Range: bytes=100-] (start = length) is
    answered 206 with Content-Range [bytes 100-99/100] and Content-Length 0,
    and [Range: bytes=150-] is answered 206 with Content-Length -50: a start
    at or beyond the length is not rejected. *)
Theorem start_beyond_length_answered_206 :
  fst (get_video (range_request sample_id (Some "bytes=100-")) (sample_world 100)) =
    {| status := 206;
       headers := [ ("Content-Range", "bytes 100-99/100");
                    ("Accept-Ranges", "bytes");
                    ("Content-Length", "0");
                    ("Content-Type", "video/mp4") ];
       body := StreamBody sample_id 100 99 |} /\
  fst (get_video (range_request sample_id (Some "bytes=150-")) (sample_world 100)) =
    {| status := 206;
       headers := [ ("Content-Range", "bytes 150-99/100");
                    ("Accept-Ranges", "bytes");
                    ("Content-Length", "-50");
                    ("Content-Type", "video/mp4") ];
       body := StreamBody sample_id 150 99 |}.
Proof.
  rewrite !get_video_sample by reflexivity. split; vm_compute; reflexivity.
Qed.

(** ** A missing Range header *)

(** C8: a GET /video/:id whose id resolves to an existing blob and that
    carries no Range header is answered 400 with an error body. *)
Theorem missing_range_is_400 (req : Request) (w : World) (id : string) (d : FileDoc) :
  ObjectId.make (params_id req) = inl id ->
  find_fault (faults w) = None ->
  files (bucket w) !! id = Some d ->
  headers_range req = None ->
  fst (get_video req w) = json 400 (ErrorBody "Requires Range header" None) /\
  status (fst (get_video req w)) = 400.
Proof.
  intros Hid Hf Hd Hr.
  rewrite (get_video_found req w id d Hid Hf Hd). rewrite Hr. split; reflexivity.
Qed.

Lemma missing_range_is_400_witness :
  fst (get_video (range_request sample_id None) (sample_world 2500000)) =
    json 400 (ErrorBody "Requires Range header" None) /\
  status (fst (get_video (range_request sample_id None) (sample_world 2500000))) = 400.
Proof.
  apply (missing_range_is_400 (range_request sample_id None) (sample_world 2500000)
           sample_id (sample_doc 2500000)).
  - reflexivity.
  - reflexivity.
  - apply sample_lookup.
  - reflexivity.
Defined.

(** An empty Range header value is falsy too and gets the same answer. *)
Lemma empty_range_is_400 (req : Request) (w : World) (id : string) (d : FileDoc) :
  ObjectId.make (params_id req) = inl id ->
  find_fault (faults w) = None ->
  files (bucket w) !! id = Some d ->
  headers_range req = Some "" ->
  fst (get_video req w) = json 400 (ErrorBody "Requires Range header" None).
Proof.
  intros Hid Hf Hd Hr.
  rewrite (get_video_found req w id d Hid Hf Hd). rewrite Hr. reflexivity.
Qed.

(** ** Malformed identifiers *)

(** C9: when the [:id] path segment is not a well-formed ObjectId string
    (24 hex characters), GET, PUT and DELETE /video/:id all answer 500, not
    404: the identifier constructor throws before the existence check, so
    the store is not even queried. *)
Theorem malformed_id_is_500 (req : Request) (w : World) :
  ObjectId.well_formed (params_id req) = false ->
  (status (fst (get_video req w)) = 500 /\ snd (get_video req w) = w) /\
  (status (fst (put_video req w)) = 500 /\ snd (put_video req w) = w) /\
  (status (fst (delete_video req w)) = 500 /\ snd (delete_video req w) = w).
Proof.
  intros H. apply malformed_make in H.
  unfold_handler. rewrite H. repeat split.
Qed.

Lemma malformed_id_is_500_witness :
  (status (fst (get_video (range_request "not-an-id" (Some "bytes=0-")) (sample_world 100))) = 500 /\
   snd (get_video (range_request "not-an-id" (Some "bytes=0-")) (sample_world 100)) = sample_world 100) /\
  (status (fst (put_video (range_request "not-an-id" (Some "bytes=0-")) (sample_world 100))) = 500 /\
   snd (put_video (range_request "not-an-id" (Some "bytes=0-")) (sample_world 100)) = sample_world 100) /\
  (status (fst (delete_video (range_request "not-an-id" (Some "bytes=0-")) (sample_world 100))) = 500 /\
   snd (delete_video (range_request "not-an-id" (Some "bytes=0-")) (sample_world 100)) = sample_world 100).
Proof.
  apply (malformed_id_is_500 (range_request "not-an-id" (Some "bytes=0-")) (sample_world 100)).
  reflexivity.
Defined.

(** A string of 24 characters that are not all hexadecimal, and a string of
    23 hexadecimal characters, are malformed as well. *)
Example malformed_examples :
  ObjectId.well_formed "65f0c1a2b3c4d5e6f7a8b9cz" = false /\
  ObjectId.well_formed "65f0c1a2b3c4d5e6f7a8b9c" = false /\
  ObjectId.well_formed "65F0C1A2B3C4D5E6F7A8B9C0" = true /\
  ObjectId.make "65F0C1A2B3C4D5E6F7A8B9C0" = inl sample_id.
Proof. repeat split. Qed.

(** ** Validation and the store *)

(** POST /upload answers a missing title or file before it touches the
    store: the world, and with it the record of store calls, is unchanged. *)
Lemma post_upload_invalid (req : Request) (w : World) :
  JS.truthy_value (body_title req) = None \/ req_file req = None ->
  post_upload req w = (json 400 (ErrorBody "Title and video file are required!" None), w).
Proof.
  unfold_handler. intros [H|H]; rewrite H; [reflexivity|].
  destruct (JS.truthy_value (body_title req)); reflexivity.
Qed.

(** C4, as the handlers are written: a missing title or file on
    POST /upload is answered 400 before any store call; on GET /video/:id
    the Range header is looked at only after the store has been queried for
    the record, so a request without a Range header costs one query and is
    answered 400 when the record is found and 404 when it is not. *)
Theorem validation_and_store_order (req : Request) (w : World) :
  (JS.truthy_value (body_title req) = None \/ req_file req = None ->
   post_upload req w = (json 400 (ErrorBody "Title and video file are required!" None), w)) /\
  (headers_range req = None ->
   forall id : string,
     ObjectId.make (params_id req) = inl id ->
     find_fault (faults w) = None ->
     snd (get_video req w) = log (OpFind id) w /\
     fst (get_video req w) =
       match files (bucket w) !! id with
       | Some _ => json 400 (ErrorBody "Requires Range header" None)
       | None => json 404 (ErrorBody "Video not found" None)
       end).
Proof.
  split; [apply post_upload_invalid|].
  intros Hr id Hid Hf.
  destruct (files (bucket w) !! id) as [d|] eqn:Hd.
  - rewrite (get_video_found req w id d Hid Hf Hd), Hr. split; reflexivity.
  - rewrite (get_video_missing req w id Hid Hf Hd). split; reflexivity.
Qed.

Lemma validation_and_store_order_witness :
  post_upload (range_request sample_id None) (sample_world 100) =
    (json 400 (ErrorBody "Title and video file are required!" None), sample_world 100) /\
  trace (snd (get_video (range_request sample_id None) (sample_world 100))) = [OpFind sample_id] /\
  fst (get_video (range_request sample_id None) (sample_world 100)) =
    json 400 (ErrorBody "Requires Range header" None) /\
  fst (get_video (range_request unknown_id None) (sample_world 100)) =
    json 404 (ErrorBody "Video not found" None).
Proof.
  destruct (validation_and_store_order (range_request sample_id None) (sample_world 100))
    as [Hup Hget].
  destruct (validation_and_store_order (range_request unknown_id None) (sample_world 100))
    as [_ Hget'].
  split; [apply Hup; left; reflexivity|].
  destruct (Hget eq_refl sample_id eq_refl eq_refl) as [Hw Hr].
  destruct (Hget' eq_refl unknown_id eq_refl eq_refl) as [_ Hr'].
  split; [rewrite Hw; reflexivity|].
  split; [rewrite Hr, sample_lookup; reflexivity|].
  rewrite Hr'. reflexivity.
Defined.

(** C4 as stated fails: a GET /video/:id without a Range header, for an
    existing blob, is answered 400 only after the store has been queried
    for the record; and for an unknown id it is answered 404, not 400. *)
Lemma range_checked_after_store_query :
  headers_range (range_request sample_id None) = None /\
  trace (sample_world 100) = [] /\
  status (fst (get_video (range_request sample_id None) (sample_world 100))) = 400 /\
  trace (snd (get_video (range_request sample_id None) (sample_world 100))) = [OpFind sample_id] /\
  status (fst (get_video (range_request unknown_id None) (sample_world 100))) = 404.
Proof.
  rewrite (get_video_found (range_request sample_id None) (sample_world 100)
             sample_id (sample_doc 100) eq_refl eq_refl (sample_lookup 100)).
  rewrite (get_video_missing (range_request unknown_id None) (sample_world 100)
             unknown_id eq_refl eq_refl eq_refl).
  repeat split.
Qed.

(** ** Error bodies *)

(** Whatever message the failed store call carries is what GET /videos
    sends back in the [error] field. *)
Lemma get_videos_find_fault (w : World) (msg : string) :
  find_fault (faults w) = Some msg ->
  fst (get_videos w) = json 500 (ErrorBody msg None).
Proof. intros H. unfold_handler. simpl. rewrite H. reflexivity. Qed.

(** C5: when the store cannot be reached, the failure path of GET /videos
    answers 500 with the internal error message itself in the [error]
    field. *)
Theorem videos_failure_exposes_message :
  fst (get_videos (with_faults (find_fails "connect ECONNREFUSED 10.0.3.7:27017")
                               (sample_world 100))) =
    json 500 (ErrorBody "connect ECONNREFUSED 10.0.3.7:27017" None).
Proof. apply get_videos_find_fault. reflexivity. Qed.

(** ** What a handler can answer *)

Lemma returns_ret {A} (a : A) (Q : A -> Prop) : Q a -> returns (ret a) Q.
Proof. intros H w a' w' E. inversion E; subst. exact H. Qed.

Lemma returns_throw {A} (msg : string) (Q : A -> Prop) : returns (throw msg) Q.
Proof. intros w a w' E. inversion E. Qed.

Lemma returns_bind {A B} (m : M A) (k : A -> M B) (Q : B -> Prop) :
  (forall a, returns (k a) Q) -> returns (bind m k) Q.
Proof.
  intros H w b w' E. unfold bind in E.
  destruct (m w) as [[a|msg] w1]; [|inversion E].
  exact (H a w1 b w' E).
Qed.

Lemma handle_returns (m : M Response) (h : string -> Response)
  (Q : Response -> Prop) (w : World) :
  returns m Q -> (forall msg, Q (h msg)) -> Q (fst (handle m h w)).
Proof.
  intros Hm Hh. unfold handle.
  destruct (m w) as [[r|msg] w'] eqn:E; simpl; [exact (Hm w r w' E)|apply Hh].
Qed.

Ltac returns_step :=
  match goal with
  | |- returns (ret _) _ => apply returns_ret
  | |- returns (throw _) _ => apply returns_throw
  | |- returns (bind _ _) _ => apply returns_bind; intros
  | |- returns (match ?x with _ => _ end) _ => destruct x
  | |- returns (let _ := _ in _) _ => cbv zeta
  end.

Lemma plain_is_structured (r : Response) : plain_answer r -> structured_answer r.
Proof. intros [H|[H|[e H]]]; unfold structured_answer; eauto. Qed.

(** Every response that is not a 200 or a 206 has a body with an [error]
    field, and only PUT /video/:id ever adds [details] to it. *)
Lemma error_responses_have_error_field (c : Call) (w : World) :
  structured_answer (fst (serve c w)) /\
  ((forall req, c <> PutVideo req) -> plain_answer (fst (serve c w))).
Proof.
  assert (Hplain : (forall req, c <> PutVideo req) -> plain_answer (fst (serve c w))).
  { intros Hc. destruct c as [req| |req|req|req]; cbn [serve];
      try (exfalso; exact (Hc req eq_refl));
      unfold post_upload, get_videos, get_video, delete_video;
      (apply handle_returns;
       [repeat returns_step | intros msg];
       unfold plain_answer, partial_content, json; simpl; eauto). }
  split; [|exact Hplain].
  destruct c as [req| |req|req|req];
    try (apply plain_is_structured, Hplain; discriminate).
  cbn [serve]. unfold put_video. apply handle_returns;
    [|intros msg; unfold structured_answer; simpl; eauto].
  repeat returns_step; unfold structured_answer, json; simpl; eauto.
Qed.

(** ** Deleting a blob *)

Lemma remove_file_gone (id : string) (b : Bucket) :
  files (remove_file id b) !! id = None /\
  forall n : nat, chunks (remove_file id b) !! (id, n) = None.
Proof.
  split; [apply lookup_delete_eq|].
  intros n. unfold remove_file. cbn [chunks].
  apply map_lookup_filter_None. right. intros x _ H. apply H. reflexivity.
Qed.

Lemma remove_file_other (id id' : string) (b : Bucket) :
  id' <> id ->
  files (remove_file id b) !! id' = files b !! id' /\
  forall n : nat, chunks (remove_file id b) !! (id', n) = chunks b !! (id', n).
Proof.
  intros Hne. split; [apply lookup_delete_ne; congruence|].
  intros n. unfold remove_file. cbn [chunks].
  destruct (chunks b !! (id', n)) as [x|] eqn:E.
  - apply map_lookup_filter_Some. split; [exact E|exact Hne].
  - apply map_lookup_filter_None. left. exact E.
Qed.

Lemma delete_video_found (req : Request) (w : World) (id : string) (d : FileDoc) :
  ObjectId.make (params_id req) = inl id ->
  find_fault (faults w) = None ->
  delete_fault (faults w) = None ->
  files (bucket w) !! id = Some d ->
  delete_video req w =
    (json 200 (MessageBody "Video deleted successfully" None),
     with_bucket (remove_file id (bucket w)) (log (OpDelete id) (log (OpFind id) w))).
Proof.
  intros Hid Hf Hdel Hd. unfold_handler. rewrite Hid. simpl.
  rewrite Hf. simpl. rewrite Hd. simpl. rewrite Hdel. simpl. rewrite Hd. reflexivity.
Qed.

Lemma delete_video_missing (req : Request) (w : World) (id : string) :
  ObjectId.make (params_id req) = inl id ->
  find_fault (faults w) = None ->
  files (bucket w) !! id = None ->
  delete_video req w = (json 404 (ErrorBody "Video not found" None), log (OpFind id) w).
Proof.
  intros Hid Hf Hd. unfold_handler. rewrite Hid. simpl.
  rewrite Hf. simpl. rewrite Hd. reflexivity.
Qed.

(** *** Once gone, a blob stays gone *)

Lemma preserves_ret {A} (I : World -> Prop) (a : A) : preserves I (ret a).
Proof. intros w H. exact H. Qed.

Lemma preserves_throw {A} (I : World -> Prop) (msg : string) :
  preserves I (@throw A msg).
Proof. intros w H. exact H. Qed.

Lemma preserves_bind {A B} (I : World -> Prop) (m : M A) (k : A -> M B) :
  preserves I m -> (forall a, preserves I (k a)) -> preserves I (bind m k).
Proof.
  intros Hm Hk w H. unfold bind. specialize (Hm w H).
  destruct (m w) as [[a|msg] w1]; simpl in *; [apply Hk; exact Hm|exact Hm].
Qed.

Lemma handle_preserves (I : World -> Prop) (m : M Response) (h : string -> Response) :
  preserves I m -> forall w, I w -> I (snd (handle m h w)).
Proof.
  intros Hm w H. unfold handle. specialize (Hm w H).
  destruct (m w) as [[r|msg] w1]; exact Hm.
Qed.

Section Gone.

Variable id : string.

Lemma gone_call (op : StoreOp) (fault : Faults -> option string) :
  preserves (gone id) (call op fault).
Proof.
  intros w H. unfold call. cbn [log faults].
  destruct (fault (faults w)); exact H.
Qed.

Lemma gone_find_by_id (i : string) : preserves (gone id) (find_by_id i).
Proof.
  unfold find_by_id. apply preserves_bind; [apply gone_call|].
  intros _ w H. exact H.
Qed.

Lemma gone_find_all : preserves (gone id) find_all.
Proof.
  unfold find_all. apply preserves_bind; [apply gone_call|].
  intros _ w H. exact H.
Qed.

Lemma gone_update_title (i t : string) : preserves (gone id) (update_title i t).
Proof.
  unfold update_title. apply preserves_bind; [apply gone_call|].
  intros _ w (Hf & Hc & Hg & Hq). repeat split; try assumption.
  cbn. apply lookup_alter_None. exact Hf.
Qed.

Lemma gone_bucket_delete (i : string) : preserves (gone id) (bucket_delete i).
Proof.
  unfold bucket_delete. apply preserves_bind; [apply gone_call|].
  intros _ w H. destruct (files (bucket w) !! i); [|exact H].
  destruct H as (Hf & Hc & Hg & Hq). repeat split; try assumption.
  - cbn. apply lookup_delete_None. right. exact Hf.
  - intros n. cbn. apply map_lookup_filter_None. left. apply Hc.
Qed.

Lemma insert_chunks_other (i : string) (cs : list (list Byte.byte)) :
  forall (n k : nat) (m : gmap (string * nat) (list Byte.byte)),
    i <> id -> insert_chunks i n cs m !! (id, k) = m !! (id, k).
Proof.
  induction cs as [|c cs IH]; intros n k m Hne; simpl; [reflexivity|].
  rewrite IH by exact Hne. apply lookup_insert_ne. congruence.
Qed.

Lemma gone_upload_stream (name t : string) (buf : list Byte.byte) :
  preserves (gone id) (upload_stream name t buf).
Proof.
  unfold upload_stream. apply preserves_bind; [apply gone_call|].
  intros _ w H. destruct (upload_errors (faults w)); [exact H|].
  destruct H as (Hf & Hc & Hg & Hq).
  assert (Hnew : gen_id w (uploads w) <> id) by (apply Hg; lia).
  repeat split; try assumption.
  - cbn. rewrite lookup_insert_ne by exact Hnew. exact Hf.
  - intros n. cbn. rewrite insert_chunks_other by exact Hnew. apply Hc.
  - intros n Hn. cbn in *. apply Hg. lia.
Qed.

Lemma gone_metadata_title (d : FileDoc) : preserves (gone id) (metadata_title d).
Proof.
  unfold metadata_title. destruct (file_metadata d);
    [apply preserves_ret|apply preserves_throw].
Qed.

Lemma gone_video_list (fs : list (string * FileDoc)) : preserves (gone id) (video_list fs).
Proof.
  induction fs as [|[i f] fs IH]; simpl; [apply preserves_ret|].
  apply preserves_bind; [apply gone_metadata_title|]. intros t.
  apply preserves_bind; [exact IH|]. intros rest. apply preserves_ret.
Qed.

Lemma gone_new_ObjectId (s : string) : preserves (gone id) (new_ObjectId s).
Proof.
  unfold new_ObjectId. destruct (ObjectId.make s);
    [apply preserves_ret|apply preserves_throw].
Qed.

Ltac preserves_step :=
  match goal with
  | |- preserves _ (ret _) => apply preserves_ret
  | |- preserves _ (throw _) => apply preserves_throw
  | |- preserves _ (bind _ _) => apply preserves_bind; [|intros]
  | |- preserves _ (new_ObjectId _) => apply gone_new_ObjectId
  | |- preserves _ (find_by_id _) => apply gone_find_by_id
  | |- preserves _ find_all => apply gone_find_all
  | |- preserves _ (update_title _ _) => apply gone_update_title
  | |- preserves _ (bucket_delete _) => apply gone_bucket_delete
  | |- preserves _ (upload_stream _ _ _) => apply gone_upload_stream
  | |- preserves _ (metadata_title _) => apply gone_metadata_title
  | |- preserves _ (video_list _) => apply gone_video_list
  | |- preserves _ (match ?x with _ => _ end) => destruct x
  | |- preserves _ (let _ := _ in _) => cbv zeta
  end.

(** No request brings a deleted blob back. *)
Lemma serve_gone (c : Call) (w : World) : gone id w -> gone id (snd (serve c w)).
Proof.
  destruct c as [req| |req|req|req]; cbn [serve];
    unfold post_upload, get_videos, get_video, put_video, delete_video;
    apply handle_preserves; repeat preserves_step.
Qed.

Lemma serve_all_gone (cs : list Call) :
  forall w : World, gone id w -> gone id (serve_all cs w).
Proof.
  induction cs as [|c cs IH]; intros w H; simpl; [exact H|].
  apply IH, serve_gone, H.
Qed.

End Gone.

(** C7, as the handler is written: for a well-formed id, DELETE /video/:id
    answers 404 when no live record has that id; when one has, it answers
    200 and removes the file document and every chunk of that id, leaving
    other blobs alone, and from then on, whatever requests follow, the
    record lookup finds nothing and GET and DELETE /video/:id answer 404
    (the driver not issuing the identifier a second time). *)
Theorem delete_removes_blob (req : Request) (w : World) (id : string) :
  ObjectId.make (params_id req) = inl id ->
  find_fault (faults w) = None ->
  delete_fault (faults w) = None ->
  (files (bucket w) !! id = None ->
   fst (delete_video req w) = json 404 (ErrorBody "Video not found" None)) /\
  (is_Some (files (bucket w) !! id) ->
   fst (delete_video req w) = json 200 (MessageBody "Video deleted successfully" None) /\
   files (bucket (snd (delete_video req w))) !! id = None /\
   (forall n : nat, chunks (bucket (snd (delete_video req w))) !! (id, n) = None) /\
   (forall id' : string, id' <> id ->
      files (bucket (snd (delete_video req w))) !! id' = files (bucket w) !! id' /\
      forall n : nat,
        chunks (bucket (snd (delete_video req w))) !! (id', n) = chunks (bucket w) !! (id', n)) /\
   ((forall n : nat, (uploads w <= n)%nat -> gen_id w n <> id) ->
    forall (cs : list Call) (req' : Request),
      ObjectId.make (params_id req') = inl id ->
      files (bucket (serve_all cs (snd (delete_video req w)))) !! id = None /\
      fst (get_video req' (serve_all cs (snd (delete_video req w)))) =
        json 404 (ErrorBody "Video not found" None) /\
      fst (delete_video req' (serve_all cs (snd (delete_video req w)))) =
        json 404 (ErrorBody "Video not found" None))).
Proof.
  intros Hid Hf Hdel. split.
  - intros Hnone. rewrite (delete_video_missing req w id Hid Hf Hnone). reflexivity.
  - intros [d Hd]. rewrite (delete_video_found req w id d Hid Hf Hdel Hd).
    cbn [fst snd with_bucket bucket].
    destruct (remove_file_gone id (bucket w)) as [Hgf Hgc].
    split; [reflexivity|]. split; [exact Hgf|]. split; [exact Hgc|].
    split; [intros id' Hne; apply remove_file_other; exact Hne|].
    intros Hgen cs req' Hid'.
    set (w' := with_bucket (remove_file id (bucket w)) (log (OpDelete id) (log (OpFind id) w))).
    assert (Hgone : gone id (serve_all cs w')).
    { apply serve_all_gone. repeat split; assumption. }
    destruct Hgone as (Hf' & _ & _ & Hq').
    split; [exact Hf'|].
    rewrite (get_video_missing req' _ id Hid' Hq' Hf').
    rewrite (delete_video_missing req' _ id Hid' Hq' Hf').
    split; reflexivity.
Qed.

Example one_blob_world_files :
  files (bucket one_blob_world) !! first_id =
    Some {| file_length := 3; file_chunkSize := 1048576;
            file_uploadDate := 1700000000000; file_filename := "clip.mp4";
            file_contentType := None;
            file_metadata := Some {| title := "Holiday" |} |} /\
  chunks (bucket one_blob_world) !! (first_id, 0%nat) = Some [Byte.x01; Byte.x02; Byte.x03].
Proof. split; vm_compute; reflexivity. Qed.

(** In the sample worlds the driver issues identifiers that start with
    [0]; none of them is [sample_id]. *)
Lemma sample_ids_fresh (b : Bucket) (n : nat) : gen_id (world_of b) n <> sample_id.
Proof. cbn [gen_id world_of]. intros H. vm_compute in H. discriminate H. Qed.

Lemma delete_removes_blob_witness :
  fst (delete_video (range_request unknown_id None) (sample_world 100)) =
    json 404 (ErrorBody "Video not found" None) /\
  fst (delete_video (range_request sample_id None) (sample_world 100)) =
    json 200 (MessageBody "Video deleted successfully" None) /\
  files (bucket (snd (delete_video (range_request sample_id None) (sample_world 100)))) !! sample_id = None /\
  chunks (bucket (snd (delete_video (range_request sample_id None) (sample_world 100)))) !! (sample_id, 0%nat) = None /\
  fst (get_video (range_request sample_id (Some "bytes=0-"))
         (serve_all [PostUpload (upload_request (Some "Holiday") (Some clip)); GetVideos]
            (snd (delete_video (range_request sample_id None) (sample_world 100))))) =
    json 404 (ErrorBody "Video not found" None).
Proof.
  destruct (delete_removes_blob (range_request unknown_id None) (sample_world 100) unknown_id
              eq_refl eq_refl eq_refl) as [H404 _].
  destruct (delete_removes_blob (range_request sample_id None) (sample_world 100) sample_id
              eq_refl eq_refl eq_refl) as [_ H200].
  split; [apply H404; reflexivity|].
  destruct H200 as (Hr & Hf & Hc & _ & Hlater).
  { exists (sample_doc 100). apply sample_lookup. }
  split; [exact Hr|]. split; [exact Hf|]. split; [apply Hc|].
  apply (Hlater (fun n _ => sample_ids_fresh _ n)
           [PostUpload (upload_request (Some "Holiday") (Some clip)); GetVideos]
           (range_request sample_id (Some "bytes=0-")) eq_refl).
Defined.

(** C7 as stated fails on an id that is no ObjectId: no live record has
    it (the bucket is empty), yet DELETE /video/:id answers 500, not 404. *)
Lemma delete_malformed_id_is_not_404 :
  files (bucket (world_of empty_bucket)) = ∅ /\
  fst (delete_video (range_request "not-an-id" None) (world_of empty_bucket)) =
    json 500 (ErrorBody "Failed to delete video" None).
Proof. split; reflexivity. Qed.

(** ** Replacing a blob *)

Lemma or_else_given (t prior : string) : t <> "" -> JS.or_else (Some t) prior = t.
Proof.
  intros H. unfold JS.or_else, JS.truthy_value.
  destruct (String.eqb t "") eqn:E; [|reflexivity].
  apply String.eqb_eq in E. contradiction.
Qed.

Lemma or_else_absent (prior : string) :
  JS.or_else None prior = prior /\ JS.or_else (Some "") prior = prior.
Proof. split; reflexivity. Qed.

(** C6: a PUT /video/:id on an existing blob that brings new content
    answers 200 with the identifier of the replacement, and the replacement
    is stored under the new upload's file name with the title [title ||
    prior title]: the title given in the same call when there is one, the
    prior blob's title otherwise. *)
Theorem replace_keeps_or_takes_title (req : Request) (w : World) (id : string)
  (d : FileDoc) (md : Metadata) (f : UploadedFile) :
  ObjectId.make (params_id req) = inl id ->
  faults w = no_faults ->
  files (bucket w) !! id = Some d ->
  file_metadata d = Some md ->
  req_file req = Some f ->
  fst (put_video req w) =
    json 200 (MessageBody "Video replaced successfully!" (Some (gen_id w (uploads w)))) /\
  (exists doc : FileDoc,
     files (bucket (snd (put_video req w))) !! gen_id w (uploads w) = Some doc /\
     file_filename doc = originalname f /\
     file_length doc = Z.of_nat (length (buffer f)) /\
     file_metadata doc = Some {| title := JS.or_else (body_title req) (title md) |}) /\
  (forall t : string, body_title req = Some t -> t <> "" ->
     JS.or_else (body_title req) (title md) = t) /\
  (body_title req = None -> JS.or_else (body_title req) (title md) = title md).
Proof.
  intros Hid Hfaults Hd Hmd Hfile.
  assert (Htitles :
    (forall t : string, body_title req = Some t -> t <> "" ->
       JS.or_else (body_title req) (title md) = t) /\
    (body_title req = None -> JS.or_else (body_title req) (title md) = title md)).
  { split; [intros t -> Ht; apply or_else_given, Ht|intros ->; reflexivity]. }
  unfold JS.or_else in *.
  destruct w as [b fl g u n tr]. cbn [faults bucket gen_id uploads] in *. subst fl.
  unfold_handler. rewrite Hid, Hfile. cbn -[lookup alter insert remove_file store_file].
  rewrite Hd.
  destruct (JS.truthy_value (body_title req)) as [t|];
    cbn -[lookup alter insert remove_file store_file].
  - unfold set_title at 1. cbn [files]. rewrite lookup_alter_eq, Hd.
    cbn -[lookup alter insert remove_file store_file].
    split; [reflexivity|]. split; [|exact Htitles].
    eexists. split; [apply lookup_insert_eq|]. repeat split.
  - rewrite Hd. cbn -[lookup alter insert remove_file store_file]. rewrite Hmd.
    cbn -[lookup alter insert remove_file store_file].
    split; [reflexivity|]. split; [|exact Htitles].
    eexists. split; [apply lookup_insert_eq|]. repeat split.
Qed.

Lemma replace_keeps_or_takes_title_witness :
  (file_metadata <$>
     files (bucket (snd (put_video (replace_request sample_id (Some "Beach")) (sample_world 100))))
       !! first_id) = Some (Some {| title := "Beach" |}) /\
  (file_metadata <$>
     files (bucket (snd (put_video (replace_request sample_id None) (sample_world 100))))
       !! first_id) = Some (Some {| title := "Holiday" |}).
Proof.
  destruct (replace_keeps_or_takes_title (replace_request sample_id (Some "Beach"))
              (sample_world 100) sample_id (sample_doc 100) {| title := "Holiday" |} clip
              eq_refl eq_refl (sample_lookup 100) eq_refl eq_refl)
    as (_ & (doc1 & Hl1 & _ & _ & Hm1) & _).
  destruct (replace_keeps_or_takes_title (replace_request sample_id None)
              (sample_world 100) sample_id (sample_doc 100) {| title := "Holiday" |} clip
              eq_refl eq_refl (sample_lookup 100) eq_refl eq_refl)
    as (_ & (doc2 & Hl2 & _ & _ & Hm2) & _).
  change (gen_id (sample_world 100) (uploads (sample_world 100))) with first_id in Hl1, Hl2.
  rewrite Hl1, Hl2. cbn [fmap option_fmap option_map]. rewrite Hm1, Hm2.
  split; reflexivity.
Defined.

(** A title alone is changed in place: the identifier, the content and the
    file name stay. *)
Lemma put_title_only (req : Request) (w : World) (id t : string) (d : FileDoc) :
  ObjectId.make (params_id req) = inl id ->
  faults w = no_faults ->
  files (bucket w) !! id = Some d ->
  JS.truthy_value (body_title req) = Some t ->
  req_file req = None ->
  fst (put_video req w) = json 200 (MessageBody "Metadata updated successfully!" None) /\
  bucket (snd (put_video req w)) = set_title id t (bucket w).
Proof.
  intros Hid Hfaults Hd Ht Hfile.
  destruct w as [b fl g u n tr]. cbn [faults bucket gen_id uploads] in *. subst fl.
  unfold_handler. rewrite Hid, Hfile, Ht. cbn -[lookup alter insert remove_file store_file].
  rewrite Hd. split; reflexivity.
Qed.

(** ** Listing *)

Lemma video_list_returned (fs : list (string * FileDoc)) :
  forall (w w' : World) (vs : list VideoEntry),
    video_list fs w = (Returned vs, w') ->
    Forall2 (fun (p : string * FileDoc) (e : VideoEntry) =>
               entry_id e = fst p /\
               exists md : Metadata,
                 file_metadata (snd p) = Some md /\ entry_filename e = title md)
            fs vs.
Proof.
  induction fs as [|[id f] fs IH]; intros w w' vs H.
  - inversion H; subst. constructor.
  - simpl in H. unfold bind, metadata_title in H.
    destruct (file_metadata f) as [md|] eqn:Hmd; simpl in H; [|discriminate H].
    destruct (video_list fs w) as [[rest|msg] w1] eqn:E; [|discriminate H].
    inversion H; subst. constructor; [|exact (IH _ _ _ E)].
    split; [reflexivity|]. exists md. split; [exact Hmd|reflexivity].
Qed.

Lemma get_videos_ok (w : World) (vs : list VideoEntry) :
  fst (get_videos w) = json 200 (ListBody vs) ->
  exists w' : World,
    video_list (map_to_list (files (bucket w))) (log OpFindAll w) = (Returned vs, w').
Proof.
  intros H. unfold get_videos, handle, find_all, call, json, bind, ret in H.
  cbn in H.
  destruct (find_fault (faults w)); [discriminate H|].
  cbn in H. remember (map_to_list (files (bucket w))) as fs eqn:Efs.
  destruct fs as [|p fs]; [discriminate H|].
  destruct (video_list (p :: fs) (log OpFindAll w)) as [[vs'|msg] w1] eqn:E;
    cbn in H; [|discriminate H].
  inversion H; subst. exists w1. reflexivity.
Qed.

Lemma post_upload_ok (req : Request) (w : World) (t : string) (f : UploadedFile) :
  JS.truthy_value (body_title req) = Some t ->
  req_file req = Some f ->
  upload_throws (faults w) = None ->
  upload_errors (faults w) = None ->
  post_upload req w =
    (json 200 (MessageBody "Video uploaded successfully!" (Some (gen_id w (uploads w)))),
     next_upload
       (with_bucket (store_file (gen_id w (uploads w)) (originalname f) t (now w)
                       (buffer f) (bucket w))
          (log (OpUpload (originalname f) t) w))).
Proof.
  intros Ht Hf H1 H2. unfold_handler. rewrite Ht, Hf.
  cbn [log faults]. rewrite H1. cbn [log faults]. rewrite H2. reflexivity.
Qed.

(** C10: every entry of a successful GET /videos response carries, in its
    [filename] field, the title kept in the metadata of the blob with that
    [_id]; and an upload stores the original file name as the blob's
    [filename] and the title in its metadata, so the listed [filename] is
    the title and not the original file name. *)
Theorem listed_filename_is_title :
  (forall (w : World) (vs : list VideoEntry),
     fst (get_videos w) = json 200 (ListBody vs) ->
     forall e : VideoEntry, e ∈ vs ->
       exists (d : FileDoc) (md : Metadata),
         files (bucket w) !! entry_id e = Some d /\
         file_metadata d = Some md /\
         entry_filename e = title md) /\
  (forall (req : Request) (w : World) (t : string) (f : UploadedFile),
     JS.truthy_value (body_title req) = Some t ->
     req_file req = Some f ->
     upload_throws (faults w) = None ->
     upload_errors (faults w) = None ->
     exists doc : FileDoc,
       files (bucket (snd (post_upload req w))) !! gen_id w (uploads w) = Some doc /\
       file_filename doc = originalname f /\
       file_metadata doc = Some {| title := t |}).
Proof.
  split.
  - intros w vs H e He.
    destruct (get_videos_ok w vs H) as [w' Hl].
    apply video_list_returned in Hl.
    destruct (proj1 (list_elem_of_lookup vs e) He) as [i Hi].
    destruct (Forall2_lookup_r _ _ _ _ _ Hl Hi) as ([id d] & Hp & Hid & md & Hmd & Hname).
    exists d, md. cbn [fst snd] in *. rewrite Hid.
    split; [|split; assumption].
    apply elem_of_map_to_list, (list_elem_of_lookup_2 _ i), Hp.
  - intros req w t f Ht Hf H1 H2.
    rewrite (post_upload_ok req w t f Ht Hf H1 H2). cbn [snd].
    eexists. split; [apply lookup_insert_eq|]. split; reflexivity.
Qed.

Lemma listed_filename_is_title_witness :
  fst (get_videos one_blob_world) =
    json 200 (ListBody [ {| entry_id := first_id;
                            entry_filename := "Holiday";
                            entry_length := 3;
                            entry_contentType := None;
                            entry_uploadDate := 1700000000000;
                            entry_videoUrl :=
                              "https://video-app-backend-1.onrender.com/video/000000000000000000000010" |} ]) /\
  (exists (d : FileDoc) (md : Metadata),
     files (bucket one_blob_world) !! first_id = Some d /\
     file_metadata d = Some md /\ "Holiday" = title md) /\
  (exists doc : FileDoc,
     files (bucket one_blob_world) !! first_id = Some doc /\
     file_filename doc = "clip.mp4" /\
     file_metadata doc = Some {| title := "Holiday" |}).
Proof.
  assert (H : fst (get_videos one_blob_world) =
    json 200 (ListBody [ {| entry_id := first_id;
                            entry_filename := "Holiday";
                            entry_length := 3;
                            entry_contentType := None;
                            entry_uploadDate := 1700000000000;
                            entry_videoUrl :=
                              "https://video-app-backend-1.onrender.com/video/000000000000000000000010" |} ])).
  { vm_compute. reflexivity. }
  destruct listed_filename_is_title as [Hlist Hup].
  split; [exact H|]. split.
  - apply (Hlist one_blob_world _ H _ (list_elem_of_here _ _)).
  - apply (Hup (upload_request (Some "Holiday") (Some clip)) (world_of empty_bucket)
             "Holiday" clip eq_refl eq_refl eq_refl eq_refl).
Defined.

(** * Further properties of the handlers *)

(** ** Printing an offset and reading it back *)









(** ** The range that is served *)

(** Whatever the request and the world, an answer of GET /video/:id that
    streams content has status 206, starts at a non-negative offset and
    announces an inclusive end at most 1,000,000 bytes after the start. *)
Theorem streamed_range_bounds (req : Request) (w : World) (id : string) (s e : Z) :
  body (fst (get_video req w)) = StreamBody id s e ->
  status (fst (get_video req w)) = 206 /\ 0 <= s /\ e <= s + 1000000.
Proof.
  revert id s e.
  change ((fun r : Response => forall (id : string) (s e : Z),
             body r = StreamBody id s e ->
             status r = 206 /\ 0 <= s /\ e <= s + 1000000) (fst (get_video req w))).
  unfold get_video. apply handle_returns.
  - repeat returns_step; cbn [json partial_content body status];
      intros id' s' e' H; try discriminate H.
    inversion H; subst. split; [reflexivity|]. split; [apply start_nonneg|].
    unfold CHUNK_SIZE. apply Z.le_min_l.
  - intros msg id' s' e' H. discriminate H.
Qed.

Lemma streamed_range_bounds_witness :
  status (fst (get_video (range_request sample_id (Some "bytes=-42-")) (sample_world 2500000))) = 206 /\
  0 <= 42 /\ 1000042 <= 42 + 1000000.
Proof.
  apply (streamed_range_bounds (range_request sample_id (Some "bytes=-42-"))
           (sample_world 2500000) sample_id 42 1000042).
  rewrite get_video_sample by reflexivity. reflexivity.
Defined.

(** A start inside the blob is served with a range inside the blob: the
    end is no earlier than the start, no later than the last byte, and is
    either the last byte or 1,000,000 bytes after the start. *)
Theorem start_in_bounds_served_in_bounds (req : Request) (w : World)
  (id range : string) (d : FileDoc) :
  ObjectId.make (params_id req) = inl id ->
  find_fault (faults w) = None ->
  files (bucket w) !! id = Some d ->
  JS.truthy_value (headers_range req) = Some range ->
  JS.Number_of_digits (JS.strip_non_digits range) < file_length d ->
  exists e : Z,
    fst (get_video req w) =
      partial_content id (JS.Number_of_digits (JS.strip_non_digits range)) e (file_length d) /\
    JS.Number_of_digits (JS.strip_non_digits range) <= e /\
    e <= file_length d - 1 /\
    (e = file_length d - 1 \/ e = JS.Number_of_digits (JS.strip_non_digits range) + 1000000).
Proof.
  intros Hid Hf Hd Hr Hlt.
  rewrite (get_video_found req w id d Hid Hf Hd). cbn [fst]. rewrite Hr. cbv zeta.
  eexists. split; [reflexivity|]. unfold CHUNK_SIZE. lia.
Qed.

Lemma start_in_bounds_served_in_bounds_witness :
  exists e : Z,
    fst (get_video (range_request sample_id (Some "bytes=2000000-")) (sample_world 2500000)) =
      partial_content sample_id 2000000 e 2500000 /\
    2000000 <= e /\ e <= 2500000 - 1 /\
    (e = 2500000 - 1 \/ e = 2000000 + 1000000).
Proof.
  apply (start_in_bounds_served_in_bounds (range_request sample_id (Some "bytes=2000000-"))
           (sample_world 2500000) sample_id "bytes=2000000-" (sample_doc 2500000)).
  - reflexivity.
  - reflexivity.
  - apply sample_lookup.
  - reflexivity.
  - reflexivity.
Defined.

(** The handler reads nothing of a Range header but its digits: two
    non-empty headers with the same digits in the same order, whatever
    their unit or punctuation, get the same answer. *)
Theorem range_read_by_digits_only (req1 req2 : Request) (w : World) (r1 r2 : string) :
  params_id req1 = params_id req2 ->
  headers_range req1 = Some r1 ->
  headers_range req2 = Some r2 ->
  r1 <> "" -> r2 <> "" ->
  JS.strip_non_digits r1 = JS.strip_non_digits r2 ->
  get_video req1 w = get_video req2 w.
Proof.
  intros Hp H1 H2 Hn1 Hn2 Hs.
  assert (T1 : JS.truthy_value (headers_range req1) = Some r1).
  { rewrite H1. unfold JS.truthy_value.
    destruct (String.eqb r1 "") eqn:E; [apply String.eqb_eq in E; contradiction|reflexivity]. }
  assert (T2 : JS.truthy_value (headers_range req2) = Some r2).
  { rewrite H2. unfold JS.truthy_value.
    destruct (String.eqb r2 "") eqn:E; [apply String.eqb_eq in E; contradiction|reflexivity]. }
  unfold get_video. rewrite Hp, T1, T2, Hs. reflexivity.
Qed.

Lemma range_read_by_digits_only_witness :
  get_video (range_request sample_id (Some "bytes=500-")) (sample_world 2500000) =
  get_video (range_request sample_id (Some "pages 5,0,0 please")) (sample_world 2500000).
Proof.
  apply (range_read_by_digits_only
           (range_request sample_id (Some "bytes=500-"))
           (range_request sample_id (Some "pages 5,0,0 please"))
           (sample_world 2500000) "bytes=500-" "pages 5,0,0 please");
    try reflexivity; discriminate.
Defined.

(** ** The two read handlers do not write *)

Lemma video_list_world (fs : list (string * FileDoc)) (w : World) :
  snd (video_list fs w) = w.
Proof.
  induction fs as [|[id f] fs IH]; [reflexivity|].
  cbn [video_list]. unfold bind, metadata_title, ret, throw.
  destruct (file_metadata f); [|reflexivity].
  destruct (video_list fs w) as [[rest|msg] w1] eqn:E; cbn [snd] in *; exact IH.
Qed.

(** GET /videos, case by case. *)
Lemma get_videos_cases (w : World) :
  get_videos w =
    match find_fault (faults w) with
    | Some msg => (json 500 (ErrorBody msg None), log OpFindAll w)
    | None =>
        match map_to_list (files (bucket w)) with
        | [] => (json 404 (ErrorBody "No videos found" None), log OpFindAll w)
        | p :: fs =>
            match video_list (p :: fs) (log OpFindAll w) with
            | (Returned vs, w') => (json 200 (ListBody vs), w')
            | (Thrown msg, w') => (json 500 (ErrorBody msg None), w')
            end
        end
    end.
Proof.
  unfold get_videos, handle, find_all, call, bind, ret. cbn [log faults].
  destruct (find_fault (faults w)); [reflexivity|].
  cbn beta iota. cbn [log bucket].
  destruct (map_to_list (files (bucket w))) as [|p fs]; [reflexivity|].
  destruct (video_list (p :: fs) (log OpFindAll w)) as [[vs|msg] w1]; reflexivity.
Qed.


(** ** Listing: empty buckets, complete listings, documents without a title *)

Lemma video_list_titled (fs : list (string * FileDoc)) (w : World) :
  (forall p : string * FileDoc, p ∈ fs -> is_Some (file_metadata (snd p))) ->
  exists vs : list VideoEntry,
    video_list fs w = (Returned vs, w) /\
    Forall2 (fun (p : string * FileDoc) (e : VideoEntry) =>
               exists md : Metadata,
                 file_metadata (snd p) = Some md /\
                 e = entry_of (fst p) (snd p) (title md)) fs vs.
Proof.
  induction fs as [|[id f] fs IH]; intros Hall.
  - exists []. split; [reflexivity|constructor].
  - destruct IH as (vs & Hvs & Hrel).
    { intros p Hp. apply Hall. right. exact Hp. }
    destruct (Hall (id, f) (list_elem_of_here _ _)) as [md Hmd]. cbn [snd] in Hmd.
    exists (entry_of id f (title md) :: vs). split.
    + cbn [video_list]. unfold bind, metadata_title, ret. rewrite Hmd, Hvs. reflexivity.
    + constructor; [|exact Hrel]. exists md. split; [exact Hmd|reflexivity].
Qed.

Lemma video_list_untitled (fs : list (string * FileDoc)) (w : World) :
  (exists p : string * FileDoc, p ∈ fs /\ file_metadata (snd p) = None) ->
  video_list fs w = (Thrown undefined_title, w).
Proof.
  induction fs as [|[id f] fs IH]; intros (p & Hp & Hnone).
  - inversion Hp.
  - cbn [video_list]. unfold bind, metadata_title, ret, throw.
    destruct (file_metadata f) as [md|] eqn:Hmd; [|reflexivity].
    rewrite IH; [reflexivity|].
    exists p. split; [|exact Hnone].
    apply elem_of_cons in Hp as [->|Hp]; [|exact Hp].
    cbn [snd] in Hnone. congruence.
Qed.

(** While the listing query works, GET /videos answers 404 exactly when
    the bucket holds no file document. *)
Theorem videos_404_iff_empty (w : World) :
  find_fault (faults w) = None ->
  (status (fst (get_videos w)) = 404 <-> files (bucket w) = ∅).
Proof.
  intros Hf. rewrite get_videos_cases, Hf.
  destruct (map_to_list (files (bucket w))) as [|p fs] eqn:E.
  - split; [intros _; apply map_to_list_empty_iff, E|reflexivity].
  - split.
    + destruct (video_list (p :: fs) (log OpFindAll w)) as [[vs|msg] w1];
        cbn; intros H; discriminate H.
    + intros Hempty. apply map_to_list_empty_iff in Hempty. congruence.
Qed.

Lemma videos_404_iff_empty_witness :
  (status (fst (get_videos (world_of empty_bucket))) = 404 <->
   files (bucket (world_of empty_bucket)) = ∅) /\
  (status (fst (get_videos (sample_world 100))) = 404 <->
   files (bucket (sample_world 100)) = ∅).
Proof.
  split.
  - apply (videos_404_iff_empty (world_of empty_bucket)). reflexivity.
  - apply (videos_404_iff_empty (sample_world 100)). reflexivity.
Defined.

(** When every file document has metadata and the listing query works, a
    non-empty bucket is listed in full: the answer is 200 with as many
    entries as there are documents, and each document appears with its
    own id, title, length, content type, upload date and streaming URL. *)
Theorem videos_lists_every_blob (w : World) :
  find_fault (faults w) = None ->
  (forall (id : string) (d : FileDoc),
     files (bucket w) !! id = Some d -> is_Some (file_metadata d)) ->
  files (bucket w) <> ∅ ->
  exists vs : list VideoEntry,
    fst (get_videos w) = json 200 (ListBody vs) /\
    length vs = size (files (bucket w)) /\
    forall (id : string) (d : FileDoc),
      files (bucket w) !! id = Some d ->
      exists md : Metadata,
        file_metadata d = Some md /\ entry_of id d (title md) ∈ vs.
Proof.
  intros Hf Hall Hne. rewrite get_videos_cases, Hf.
  destruct (video_list_titled (map_to_list (files (bucket w))) (log OpFindAll w))
    as (vs & Hvs & Hrel).
  { intros [id d] Hp. apply elem_of_map_to_list in Hp. exact (Hall id d Hp). }
  destruct (map_to_list (files (bucket w))) as [|p fs] eqn:E.
  { apply map_to_list_empty_iff in E. contradiction. }
  rewrite Hvs. exists vs. split; [reflexivity|].
  split.
  - rewrite <- (Forall2_length _ _ _ Hrel), <- E. apply length_map_to_list.
  - intros id d Hd.
    assert (Hin : (id, d) ∈ p :: fs) by (rewrite <- E; apply elem_of_map_to_list, Hd).
    apply list_elem_of_lookup in Hin as [i Hi].
    destruct (Forall2_lookup_l _ _ _ _ _ Hrel Hi) as (e & He & md & Hmd & ->).
    exists md. split; [exact Hmd|]. apply (list_elem_of_lookup_2 _ i), He.
Qed.

Lemma videos_lists_every_blob_witness :
  exists vs : list VideoEntry,
    fst (get_videos (sample_world 100)) = json 200 (ListBody vs) /\
    length vs = size (files (bucket (sample_world 100))) /\
    forall (id : string) (d : FileDoc),
      files (bucket (sample_world 100)) !! id = Some d ->
      exists md : Metadata,
        file_metadata d = Some md /\ entry_of id d (title md) ∈ vs.
Proof.
  apply (videos_lists_every_blob (sample_world 100)).
  - reflexivity.
  - intros id d Hd. cbn [sample_world world_of bucket files] in Hd.
    apply lookup_singleton_Some in Hd as [_ <-]. eexists. reflexivity.
  - intros H. pose proof (sample_lookup 100) as Hl. rewrite H in Hl. discriminate Hl.
Defined.

(** One file document without metadata is enough to make the whole
    listing fail: GET /videos answers 500 and lists nothing, even though
    other documents are well formed. *)
Theorem untitled_document_fails_listing (w : World) (id : string) (d : FileDoc) :
  find_fault (faults w) = None ->
  files (bucket w) !! id = Some d ->
  file_metadata d = None ->
  status (fst (get_videos w)) = 500 /\
  exists msg : string, body (fst (get_videos w)) = ErrorBody msg None.
Proof.
  intros Hf Hd Hnone. rewrite get_videos_cases, Hf.
  assert (Hin : (id, d) ∈ map_to_list (files (bucket w))) by apply elem_of_map_to_list, Hd.
  destruct (map_to_list (files (bucket w))) as [|p fs]; [inversion Hin|].
  rewrite (video_list_untitled (p :: fs) (log OpFindAll w))
    by (exists (id, d); split; [exact Hin|exact Hnone]).
  split; [reflexivity|]. eexists. reflexivity.
Qed.

Lemma untitled_document_fails_listing_witness :
  files (bucket mixed_world) !! sample_id = Some (sample_doc 100) /\
  status (fst (get_videos mixed_world)) = 500 /\
  exists msg : string, body (fst (get_videos mixed_world)) = ErrorBody msg None.
Proof.
  split; [reflexivity|].
  apply (untitled_document_fails_listing mixed_world second_id untitled_doc);
    reflexivity.
Defined.

(** ** PUT /video/:id beyond the replacement itself *)

(** A PUT for a well-formed id without a record answers 404 after the one
    lookup: whatever title or file the request carries, nothing is
    updated, deleted or uploaded. *)
Theorem put_unknown_id_touches_nothing (req : Request) (w : World) (id : string) :
  ObjectId.make (params_id req) = inl id ->
  find_fault (faults w) = None ->
  files (bucket w) !! id = None ->
  put_video req w = (json 404 (ErrorBody "Video not found" None), log (OpFind id) w).
Proof.
  intros Hid Hf Hd. unfold_handler. rewrite Hid. cbn [log faults bucket].
  rewrite Hf. cbn [log faults bucket]. rewrite Hd. reflexivity.
Qed.

Lemma put_unknown_id_touches_nothing_witness :
  put_video (put_request unknown_id (Some "Beach") (Some clip)) (sample_world 100) =
    (json 404 (ErrorBody "Video not found" None), log (OpFind unknown_id) (sample_world 100)).
Proof.
  apply (put_unknown_id_touches_nothing (put_request unknown_id (Some "Beach") (Some clip))
           (sample_world 100) unknown_id); reflexivity.
Defined.

(** A PUT on an existing blob with neither a title nor a file changes
    nothing and makes no store call after the lookup, yet answers 200
    "Metadata updated successfully!". *)
Theorem put_without_title_or_file (req : Request) (w : World) (id : string) (d : FileDoc) :
  ObjectId.make (params_id req) = inl id ->
  find_fault (faults w) = None ->
  files (bucket w) !! id = Some d ->
  JS.truthy_value (body_title req) = None ->
  req_file req = None ->
  put_video req w =
    (json 200 (MessageBody "Metadata updated successfully!" None), log (OpFind id) w).
Proof.
  intros Hid Hf Hd Ht Hfile. unfold_handler. rewrite Hid, Ht, Hfile. cbn [log faults bucket].
  rewrite Hf. cbn [log faults bucket]. rewrite Hd. reflexivity.
Qed.

Lemma put_without_title_or_file_witness :
  put_video (put_request sample_id (Some "") None) (sample_world 100) =
    (json 200 (MessageBody "Metadata updated successfully!" None),
     log (OpFind sample_id) (sample_world 100)).
Proof.
  apply (put_without_title_or_file (put_request sample_id (Some "") None)
           (sample_world 100) sample_id (sample_doc 100));
    reflexivity.
Defined.

(** A PUT that carries a title and no file changes the title in place:
    the document keeps its id, length, file name, upload date and chunks,
    every other document is untouched, and the store is asked for one
    lookup and one update. *)
Theorem title_update_in_place (req : Request) (w : World) (id t : string) (d : FileDoc) :
  ObjectId.make (params_id req) = inl id ->
  faults w = no_faults ->
  files (bucket w) !! id = Some d ->
  JS.truthy_value (body_title req) = Some t ->
  req_file req = None ->
  fst (put_video req w) = json 200 (MessageBody "Metadata updated successfully!" None) /\
  files (bucket (snd (put_video req w))) !! id = Some (retitled t d) /\
  (forall id' : string, id' <> id ->
     files (bucket (snd (put_video req w))) !! id' = files (bucket w) !! id') /\
  chunks (bucket (snd (put_video req w))) = chunks (bucket w) /\
  trace (snd (put_video req w)) = OpUpdateTitle id t :: OpFind id :: trace w.
Proof.
  intros Hid Hfaults Hd Ht Hfile.
  destruct w as [b fl g u n tr]. cbn [faults bucket gen_id uploads trace] in *. subst fl.
  unfold_handler. rewrite Hid, Hfile, Ht.
  cbn -[lookup alter insert delete remove_file store_file set_title]. rewrite Hd.
  cbn -[lookup alter insert delete remove_file store_file set_title].
  split; [reflexivity|]. unfold set_title. cbn [files chunks].
  split; [rewrite lookup_alter_eq, Hd; reflexivity|].
  split; [intros id' Hne; apply lookup_alter_ne; congruence|].
  split; reflexivity.
Qed.

Lemma title_update_in_place_witness :
  fst (put_video (put_request sample_id (Some "Beach") None) (sample_world 100)) =
    json 200 (MessageBody "Metadata updated successfully!" None) /\
  files (bucket (snd (put_video (put_request sample_id (Some "Beach") None) (sample_world 100))))
    !! sample_id = Some (retitled "Beach" (sample_doc 100)) /\
  trace (snd (put_video (put_request sample_id (Some "Beach") None) (sample_world 100))) =
    [OpUpdateTitle sample_id "Beach"; OpFind sample_id].
Proof.
  destruct (title_update_in_place (put_request sample_id (Some "Beach") None)
              (sample_world 100) sample_id "Beach" (sample_doc 100)
              eq_refl eq_refl (sample_lookup 100) eq_refl eq_refl)
    as (Hr & Hl & _ & _ & Htr).
  split; [exact Hr|]. split; [exact Hl|exact Htr].
Defined.

(** ** Replacement is delete, then upload *)

Lemma remove_after_title (id t : string) (b : Bucket) :
  files (remove_file id (set_title id t b)) = delete id (files b) /\
  chunks (remove_file id (set_title id t b)) = chunks (remove_file id b).
Proof. split; [apply delete_alter_eq|reflexivity]. Qed.

Lemma set_title_lookup (id t : string) (b : Bucket) (d : FileDoc) :
  files b !! id = Some d -> files (set_title id t b) !! id = Some (retitled t d).
Proof. intros H. unfold set_title. cbn [files]. rewrite lookup_alter_eq, H. reflexivity. Qed.

(** After a successful replacement the blob lives under the identifier
    the driver issued for the upload: when that differs from the id of
    the request, the old id has no document and no chunk left and a GET
    for it answers 404; documents under other identifiers are untouched;
    the store saw the lookup, the title update if any, the delete and
    then the upload, in that order. *)
Theorem replace_moves_blob_to_new_id (req : Request) (w : World) (id : string)
  (d : FileDoc) (md : Metadata) (f : UploadedFile) :
  ObjectId.make (params_id req) = inl id ->
  faults w = no_faults ->
  files (bucket w) !! id = Some d ->
  file_metadata d = Some md ->
  req_file req = Some f ->
  gen_id w (uploads w) <> id ->
  files (bucket (snd (put_video req w))) !! id = None /\
  (forall n : nat, chunks (bucket (snd (put_video req w))) !! (id, n) = None) /\
  (forall id' : string, id' <> id -> id' <> gen_id w (uploads w) ->
     files (bucket (snd (put_video req w))) !! id' = files (bucket w) !! id') /\
  (forall req' : Request, ObjectId.make (params_id req') = inl id ->
     fst (get_video req' (snd (put_video req w))) =
       json 404 (ErrorBody "Video not found" None)) /\
  trace (snd (put_video req w)) =
    OpUpload (originalname f) (JS.or_else (body_title req) (title md)) :: OpDelete id ::
      match JS.truthy_value (body_title req) with
      | Some t => OpUpdateTitle id t :: OpFind id :: trace w
      | None => OpFind id :: trace w
      end.
Proof.
  intros Hid Hfaults Hd Hmd Hfile Hnew.
  assert (Hfinal :
    exists w' : World,
      snd (put_video req w) = w' /\ faults w' = no_faults /\
      files (bucket w') =
        <[gen_id w (uploads w) :=
            {| file_length := Z.of_nat (length (buffer f));
               file_chunkSize := chunkSizeBytes;
               file_uploadDate := now w;
               file_filename := originalname f;
               file_contentType := None;
               file_metadata :=
                 Some {| title := JS.or_else (body_title req) (title md) |} |}]>
          (delete id (files (bucket w))) /\
      chunks (bucket w') =
        insert_chunks (gen_id w (uploads w)) 0
          (chunks_of (Z.to_N chunkSizeBytes) (buffer f))
          (chunks (remove_file id (bucket w))) /\
      trace w' =
        OpUpload (originalname f) (JS.or_else (body_title req) (title md)) :: OpDelete id ::
          match JS.truthy_value (body_title req) with
          | Some t => OpUpdateTitle id t :: OpFind id :: trace w
          | None => OpFind id :: trace w
          end).
  { unfold JS.or_else.
    destruct w as [b fl g u n tr]. cbn [faults bucket gen_id uploads trace now] in *. subst fl.
    unfold_handler. rewrite Hid, Hfile.
    cbn -[lookup alter insert delete remove_file store_file set_title]. rewrite Hd.
    destruct (JS.truthy_value (body_title req)) as [t|];
      cbn -[lookup alter insert delete remove_file store_file set_title].
    - unfold set_title at 1. cbn [files]. rewrite lookup_alter_eq, Hd.
      cbn -[lookup alter insert delete remove_file store_file set_title].
      eexists. split; [reflexivity|]. cbn [faults bucket trace]. split; [reflexivity|].
      unfold store_file. cbn [files chunks].
      destruct (remove_after_title id t b) as [-> ->].
      repeat split.
    - rewrite Hd. cbn -[lookup alter insert delete remove_file store_file set_title].
      rewrite Hmd. cbn -[lookup alter insert delete remove_file store_file set_title].
      eexists. split; [reflexivity|]. cbn [faults bucket trace]. split; [reflexivity|].
      unfold store_file. cbn [files chunks]. repeat split. }
  destruct Hfinal as (w' & -> & Hfl & Hfiles & Hchunks & Htrace).
  assert (Hgone : files (bucket w') !! id = None).
  { rewrite Hfiles, lookup_insert_ne by exact Hnew. apply lookup_delete_eq. }
  split; [exact Hgone|]. split.
  { intros n. rewrite Hchunks, insert_chunks_other by exact Hnew.
    apply remove_file_gone. }
  split.
  { intros id' Hne Hne'. rewrite Hfiles, lookup_insert_ne by congruence.
    apply lookup_delete_ne. congruence. }
  split; [|exact Htrace].
  intros req' Hid'. rewrite (get_video_missing req' w' id Hid'); [reflexivity| |exact Hgone].
  rewrite Hfl. reflexivity.
Qed.

Lemma replace_moves_blob_to_new_id_witness :
  files (bucket (snd (put_video (put_request sample_id None (Some clip)) (sample_world 100))))
    !! sample_id = None /\
  fst (get_video (range_request sample_id (Some "bytes=0-"))
         (snd (put_video (put_request sample_id None (Some clip)) (sample_world 100)))) =
    json 404 (ErrorBody "Video not found" None) /\
  trace (snd (put_video (put_request sample_id None (Some clip)) (sample_world 100))) =
    [OpUpload "clip.mp4" "Holiday"; OpDelete sample_id; OpFind sample_id].
Proof.
  destruct (replace_moves_blob_to_new_id (put_request sample_id None (Some clip))
              (sample_world 100) sample_id (sample_doc 100) {| title := "Holiday" |} clip
              eq_refl eq_refl (sample_lookup 100) eq_refl eq_refl
              (sample_ids_fresh _ 0%nat))
    as (Hgone & _ & _ & Hget & Htr).
  split; [exact Hgone|]. split; [|exact Htr].
  apply Hget. reflexivity.
Defined.

(** The replacement is not atomic: when the upload stream of a replace
    reports an error, the answer is 500 "Failed to upload new video", the
    old document has already been deleted, and nothing stands in its
    place. *)
Theorem failed_replace_loses_blob (req : Request) (w : World) (id msg : string)
  (d : FileDoc) (md : Metadata) (f : UploadedFile) :
  ObjectId.make (params_id req) = inl id ->
  faults w = upload_errors_with msg ->
  files (bucket w) !! id = Some d ->
  file_metadata d = Some md ->
  req_file req = Some f ->
  fst (put_video req w) = json 500 (ErrorBody "Failed to upload new video" None) /\
  files (bucket (snd (put_video req w))) = delete id (files (bucket w)) /\
  files (bucket (snd (put_video req w))) !! id = None.
Proof.
  intros Hid Hfaults Hd Hmd Hfile.
  assert (Hfiles : fst (put_video req w) = json 500 (ErrorBody "Failed to upload new video" None) /\
                   files (bucket (snd (put_video req w))) = delete id (files (bucket w))).
  { destruct w as [b fl g u n tr]. cbn [faults bucket gen_id uploads trace now] in *. subst fl.
    unfold_handler. rewrite Hid, Hfile.
    cbn -[lookup alter insert delete remove_file store_file set_title]. rewrite Hd.
    destruct (JS.truthy_value (body_title req)) as [t|];
      cbn -[lookup alter insert delete remove_file store_file set_title].
    - rewrite (set_title_lookup id t b d Hd).
      cbn -[lookup alter insert delete remove_file store_file set_title].
      split; [reflexivity|]. apply remove_after_title.
    - rewrite Hd. cbn -[lookup alter insert delete remove_file store_file set_title].
      rewrite Hmd. cbn -[lookup alter insert delete remove_file store_file set_title].
      split; reflexivity. }
  destruct Hfiles as [Hr Hfiles]. split; [exact Hr|]. split; [exact Hfiles|].
  rewrite Hfiles. apply lookup_delete_eq.
Qed.

Lemma failed_replace_loses_blob_witness :
  fst (put_video (put_request sample_id (Some "Beach") (Some clip))
         (with_faults (upload_errors_with "write failed") (sample_world 100))) =
    json 500 (ErrorBody "Failed to upload new video" None) /\
  files (bucket (snd (put_video (put_request sample_id (Some "Beach") (Some clip))
                        (with_faults (upload_errors_with "write failed") (sample_world 100)))))
    !! sample_id = None.
Proof.
  destruct (failed_replace_loses_blob (put_request sample_id (Some "Beach") (Some clip))
              (with_faults (upload_errors_with "write failed") (sample_world 100))
              sample_id "write failed" (sample_doc 100) {| title := "Holiday" |} clip
              eq_refl eq_refl (sample_lookup 100) eq_refl eq_refl)
    as (Hr & _ & Hgone).
  split; [exact Hr|exact Hgone].
Defined.

(** When the delete of a replace fails, the answer is 500 with the store's
    message in [details]; a title sent in the same request has already
    been written, the content is the old one, and no upload is attempted. *)
Theorem failed_delete_keeps_new_title (req : Request) (w : World) (id t msg : string)
  (d : FileDoc) (f : UploadedFile) :
  ObjectId.make (params_id req) = inl id ->
  faults w = delete_fails msg ->
  files (bucket w) !! id = Some d ->
  JS.truthy_value (body_title req) = Some t ->
  req_file req = Some f ->
  fst (put_video req w) = json 500 (ErrorBody "Failed to replace video" (Some msg)) /\
  files (bucket (snd (put_video req w))) !! id = Some (retitled t d) /\
  chunks (bucket (snd (put_video req w))) = chunks (bucket w) /\
  trace (snd (put_video req w)) = OpDelete id :: OpUpdateTitle id t :: OpFind id :: trace w.
Proof.
  intros Hid Hfaults Hd Ht Hfile.
  destruct w as [b fl g u n tr]. cbn [faults bucket gen_id uploads trace now] in *. subst fl.
  unfold_handler. rewrite Hid, Hfile, Ht.
  cbn -[lookup alter insert delete remove_file store_file set_title]. rewrite Hd.
  cbn -[lookup alter insert delete remove_file store_file set_title].
  split; [reflexivity|]. unfold set_title. cbn [files chunks].
  split; [rewrite lookup_alter_eq, Hd; reflexivity|]. split; reflexivity.
Qed.

Lemma failed_delete_keeps_new_title_witness :
  fst (put_video (put_request sample_id (Some "Beach") (Some clip))
         (with_faults (delete_fails "not primary") (sample_world 100))) =
    json 500 (ErrorBody "Failed to replace video" (Some "not primary")) /\
  files (bucket (snd (put_video (put_request sample_id (Some "Beach") (Some clip))
                        (with_faults (delete_fails "not primary") (sample_world 100)))))
    !! sample_id = Some (retitled "Beach" (sample_doc 100)).
Proof.
  destruct (failed_delete_keeps_new_title (put_request sample_id (Some "Beach") (Some clip))
              (with_faults (delete_fails "not primary") (sample_world 100))
              sample_id "Beach" "not primary" (sample_doc 100) clip
              eq_refl eq_refl (sample_lookup 100) eq_refl eq_refl)
    as (Hr & Hl & _).
  split; [exact Hr|exact Hl].
Defined.

(** ** Failures of upload and delete *)

(** A failed upload adds no document and does not pass the store's
    message on: an error when the stream is opened is answered 500
    "Internal Server Error", an error event of the stream 500 "Failed to
    upload video", and the file documents are those from before. *)
Theorem failed_upload_adds_nothing (req : Request) (w : World) (t msg : string)
  (f : UploadedFile) :
  JS.truthy_value (body_title req) = Some t ->
  req_file req = Some f ->
  (upload_throws (faults w) = Some msg \/
   upload_throws (faults w) = None /\ upload_errors (faults w) = Some msg) ->
  files (bucket (snd (post_upload req w))) = files (bucket w) /\
  trace (snd (post_upload req w)) = OpUpload (originalname f) t :: trace w /\
  (upload_throws (faults w) = Some msg ->
   fst (post_upload req w) = json 500 (ErrorBody "Internal Server Error" None)) /\
  (upload_throws (faults w) = None ->
   fst (post_upload req w) = json 500 (ErrorBody "Failed to upload video" None)).
Proof.
  intros Ht Hf Hfault. unfold_handler. rewrite Ht, Hf. cbn [log faults].
  destruct Hfault as [H1|[H1 H2]]; rewrite H1; cbn [log faults fst snd].
  - repeat split. intros H. discriminate H.
  - rewrite H2. cbn [fst snd]. repeat split. intros H. discriminate H.
Qed.

Lemma failed_upload_adds_nothing_witness :
  files (bucket (snd (post_upload (upload_request (Some "Holiday") (Some clip))
                        (with_faults (upload_errors_with "disk full") (sample_world 100))))) =
    files (bucket (sample_world 100)) /\
  fst (post_upload (upload_request (Some "Holiday") (Some clip))
         (with_faults (upload_errors_with "disk full") (sample_world 100))) =
    json 500 (ErrorBody "Failed to upload video" None) /\
  fst (post_upload (upload_request (Some "Holiday") (Some clip))
         (with_faults (upload_throws_with "bucket is undefined") (sample_world 100))) =
    json 500 (ErrorBody "Internal Server Error" None).
Proof.
  destruct (failed_upload_adds_nothing (upload_request (Some "Holiday") (Some clip))
              (with_faults (upload_errors_with "disk full") (sample_world 100))
              "Holiday" "disk full" clip eq_refl eq_refl (or_intror (conj eq_refl eq_refl)))
    as (Hfiles & _ & _ & Herr).
  destruct (failed_upload_adds_nothing (upload_request (Some "Holiday") (Some clip))
              (with_faults (upload_throws_with "bucket is undefined") (sample_world 100))
              "Holiday" "bucket is undefined" clip eq_refl eq_refl (or_introl eq_refl))
    as (_ & _ & Hthrow & _).
  split; [exact Hfiles|]. split; [apply Herr; reflexivity|apply Hthrow; reflexivity].
Defined.

(** When the store's delete fails, DELETE /video/:id answers 500 "Failed
    to delete video" without the store's message, and the bucket is as
    before. *)
Theorem failed_delete_keeps_blob (req : Request) (w : World) (id msg : string) (d : FileDoc) :
  ObjectId.make (params_id req) = inl id ->
  find_fault (faults w) = None ->
  delete_fault (faults w) = Some msg ->
  files (bucket w) !! id = Some d ->
  fst (delete_video req w) = json 500 (ErrorBody "Failed to delete video" None) /\
  bucket (snd (delete_video req w)) = bucket w /\
  trace (snd (delete_video req w)) = OpDelete id :: OpFind id :: trace w.
Proof.
  intros Hid Hf Hdel Hd. unfold_handler. rewrite Hid. cbn [log faults bucket].
  rewrite Hf. cbn [log faults bucket]. rewrite Hd. cbn [log faults bucket].
  rewrite Hdel. repeat split.
Qed.

Lemma failed_delete_keeps_blob_witness :
  fst (delete_video (range_request sample_id None)
         (with_faults (delete_fails "not primary") (sample_world 100))) =
    json 500 (ErrorBody "Failed to delete video" None) /\
  bucket (snd (delete_video (range_request sample_id None)
                 (with_faults (delete_fails "not primary") (sample_world 100)))) =
    bucket (sample_world 100).
Proof.
  destruct (failed_delete_keeps_blob (range_request sample_id None)
              (with_faults (delete_fails "not primary") (sample_world 100))
              sample_id "not primary" (sample_doc 100)
              eq_refl eq_refl eq_refl (sample_lookup 100))
    as (Hr & Hb & _).
  split; [exact Hr|exact Hb].
Defined.

(** ** Upload, then stream *)



(** ** Titles never go missing *)

Lemma triple_ret {A} (I : World -> Prop) (a : A) (F : A -> Prop) :
  F a -> triple I (ret a) F.
Proof. intros H w Hw. split; assumption. Qed.

Lemma triple_throw {A} (I : World -> Prop) (msg : string) (F : A -> Prop) :
  triple I (throw msg) F.
Proof. intros w Hw. exact Hw. Qed.

Lemma triple_bind {A B} (I : World -> Prop) (m : M A) (k : A -> M B)
  (F : A -> Prop) (G : B -> Prop) :
  triple I m F -> (forall a, F a -> triple I (k a) G) -> triple I (bind m k) G.
Proof.
  intros Hm Hk w Hw. unfold bind. specialize (Hm w Hw).
  destruct (m w) as [[a|msg] w1]; [|exact Hm].
  destruct Hm as [Hw1 Ha]. exact (Hk a Ha w1 Hw1).
Qed.

Lemma handle_triple (I : World -> Prop) (m : M Response) (h : string -> Response)
  (F : Response -> Prop) (w : World) :
  triple I m F -> I w -> I (snd (handle m h w)).
Proof.
  intros Hm Hw. unfold handle. specialize (Hm w Hw).
  destruct (m w) as [[r|msg] w1]; [exact (proj1 Hm)|exact Hm].
Qed.

Lemma truthy_value_nonempty (v : option string) (t : string) :
  JS.truthy_value v = Some t -> t <> "".
Proof.
  unfold JS.truthy_value. destruct v as [s|]; [|discriminate].
  destruct (String.eqb s "") eqn:E; [discriminate|].
  intros [= <-]. apply String.eqb_neq, E.
Qed.

Lemma listable_call (op : StoreOp) (fault : Faults -> option string) :
  triple listable (call op fault) any.
Proof.
  intros w Hw. unfold call. cbn [log faults].
  destruct (fault (faults w)); [exact Hw|split; [exact Hw|exact I]].
Qed.

Lemma listable_find_by_id (i : string) : triple listable (find_by_id i) good_docs.
Proof.
  unfold find_by_id. eapply triple_bind; [apply listable_call|].
  intros _ _ w Hw. split; [exact Hw|].
  intros p Hp. destruct (files (bucket w) !! i) as [d|] eqn:E; [|inversion Hp].
  apply list_elem_of_singleton in Hp as ->. exact (proj1 Hw i d E).
Qed.

Lemma listable_find_all : triple listable find_all any.
Proof.
  unfold find_all. eapply triple_bind; [apply listable_call|].
  intros _ _ w Hw. split; [exact Hw|exact I].
Qed.

Lemma listable_update_title (i t : string) :
  t <> "" -> triple listable (update_title i t) any.
Proof.
  intros Ht. unfold update_title. eapply triple_bind; [apply listable_call|].
  intros _ _ w [Htitled Hfind]. split; [|exact I]. split; [|exact Hfind].
  intros id d Hd. cbn in Hd. apply lookup_alter_Some in Hd as [(-> & x & _ & ->)|[_ Hd]].
  - eexists. split; [reflexivity|exact Ht].
  - exact (Htitled id d Hd).
Qed.

Lemma listable_bucket_delete (i : string) : triple listable (bucket_delete i) any.
Proof.
  unfold bucket_delete. eapply triple_bind; [apply listable_call|].
  intros _ _ w [Htitled Hfind].
  destruct (files (bucket w) !! i); [|split; assumption].
  split; [|exact I]. split; [|exact Hfind].
  intros id d Hd. cbn in Hd. apply lookup_delete_Some in Hd as [_ Hd].
  exact (Htitled id d Hd).
Qed.

Lemma listable_upload_stream (name t : string) (buf : list Byte.byte) :
  t <> "" -> triple listable (upload_stream name t buf) any.
Proof.
  intros Ht. unfold upload_stream. eapply triple_bind; [apply listable_call|].
  intros _ _ w [Htitled Hfind].
  destruct (upload_errors (faults w)); [split; [split; assumption|exact I]|].
  split; [|exact I]. split; [|exact Hfind].
  intros id d Hd. cbn in Hd. apply lookup_insert_Some in Hd as [[_ <-]|[_ Hd]].
  - eexists. split; [reflexivity|exact Ht].
  - exact (Htitled id d Hd).
Qed.

Lemma listable_metadata_title (d : FileDoc) :
  (exists md : Metadata, file_metadata d = Some md /\ title md <> "") ->
  triple listable (metadata_title d) good_title.
Proof.
  intros (md & Hmd & Ht). unfold metadata_title. rewrite Hmd.
  apply triple_ret. exact Ht.
Qed.

Lemma listable_video_list (fs : list (string * FileDoc)) :
  triple listable (video_list fs) any.
Proof.
  intros w Hw. pose proof (video_list_world fs w) as Hsame.
  destruct (video_list fs w) as [[vs|msg] w1]; cbn [snd] in Hsame; subst w1;
    [split; [exact Hw|exact I]|exact Hw].
Qed.

Lemma listable_new_ObjectId (s : string) : triple listable (new_ObjectId s) any.
Proof.
  unfold new_ObjectId. destruct (ObjectId.make s);
    [apply triple_ret; exact I|apply triple_throw].
Qed.

Lemma serve_listable (c : Call) (w : World) : listable w -> listable (snd (serve c w)).
Proof.
  intros Hw. destruct c as [req| |req|req|req]; cbn [serve].
  - unfold post_upload. apply (handle_triple listable _ _ any); [|exact Hw]. cbv zeta.
    destruct (JS.truthy_value (body_title req)) as [t|] eqn:Ht;
      [|apply triple_ret; exact I].
    destruct (req_file req) as [f|]; [|apply triple_ret; exact I].
    eapply triple_bind;
      [apply listable_upload_stream, (truthy_value_nonempty _ _ Ht)|].
    intros ev _. destruct ev; apply triple_ret; exact I.
  - unfold get_videos. apply (handle_triple listable _ _ any); [|exact Hw].
    eapply triple_bind; [apply listable_find_all|]. intros fs _.
    destruct fs; [apply triple_ret; exact I|].
    eapply triple_bind; [apply listable_video_list|]. intros vs _.
    apply triple_ret; exact I.
  - unfold get_video. apply (handle_triple listable _ _ any); [|exact Hw].
    eapply triple_bind; [apply listable_new_ObjectId|]. intros fileId _.
    eapply triple_bind; [apply listable_find_by_id|]. intros file _.
    destruct file as [|[i file0] rest]; [apply triple_ret; exact I|].
    destruct (JS.truthy_value (headers_range req)); apply triple_ret; exact I.
  - unfold put_video. apply (handle_triple listable _ _ any); [|exact Hw].
    eapply triple_bind; [apply listable_new_ObjectId|]. intros fileId _. cbv zeta.
    eapply triple_bind; [apply listable_find_by_id|]. intros file Hfile.
    destruct file as [|[i file0] rest]; [apply triple_ret; exact I|].
    pose proof (Hfile (i, file0) (list_elem_of_here _ _)) as Hmd. cbn [snd] in Hmd.
    destruct (JS.truthy_value (body_title req)) as [t|] eqn:Ht.
    + pose proof (truthy_value_nonempty _ _ Ht) as Hne.
      eapply triple_bind; [apply listable_update_title, Hne|]. intros _ _.
      destruct (req_file req) as [f|]; [|apply triple_ret; exact I].
      eapply triple_bind; [apply listable_bucket_delete|]. intros _ _.
      eapply triple_bind; [apply (triple_ret listable t good_title), Hne|]. intros t' Ht'.
      eapply triple_bind; [apply listable_upload_stream, Ht'|]. intros ev _.
      destruct ev; apply triple_ret; exact I.
    + eapply triple_bind; [apply (triple_ret listable tt any), I|]. intros _ _.
      destruct (req_file req) as [f|]; [|apply triple_ret; exact I].
      eapply triple_bind; [apply listable_bucket_delete|]. intros _ _.
      eapply triple_bind; [apply listable_metadata_title, Hmd|]. intros t' Ht'.
      eapply triple_bind; [apply listable_upload_stream, Ht'|]. intros ev _.
      destruct ev; apply triple_ret; exact I.
  - unfold delete_video. apply (handle_triple listable _ _ any); [|exact Hw].
    eapply triple_bind; [apply listable_new_ObjectId|]. intros fileId _.
    eapply triple_bind; [apply listable_find_by_id|]. intros file _.
    destruct file; [apply triple_ret; exact I|].
    eapply triple_bind; [apply listable_bucket_delete|]. intros _ _.
    apply triple_ret; exact I.
Qed.

Lemma serve_all_listable (cs : list Call) :
  forall w : World, listable w -> listable (serve_all cs w).
Proof.
  induction cs as [|c cs IH]; intros w Hw; [exact Hw|].
  cbn [serve_all]. apply IH, serve_listable, Hw.
Qed.

Lemma listable_answers (w : World) :
  listable w -> status (fst (get_videos w)) = 200 \/ status (fst (get_videos w)) = 404.
Proof.
  intros [Htitled Hfind]. rewrite get_videos_cases, Hfind.
  destruct (map_to_list (files (bucket w))) as [|p fs] eqn:E; [right; reflexivity|].
  destruct (video_list_titled (p :: fs) (log OpFindAll w)) as (vs & -> & _);
    [|left; reflexivity].
  intros [id d] Hp. rewrite <- E in Hp. apply elem_of_map_to_list in Hp.
  destruct (Htitled id d Hp) as (md & Hmd & _). exists md. exact Hmd.
Qed.

(** The service keeps its own bucket listable: if every file document has
    a non-empty title, then after any sequence of requests, failed ones
    included, every file document still has one, and GET /videos, as long
    as its query works, answers 200 or 404 and never fails on a document. *)
Theorem titles_never_go_missing (cs : list Call) (w : World) :
  titled (bucket w) ->
  find_fault (faults w) = None ->
  titled (bucket (serve_all cs w)) /\
  (status (fst (get_videos (serve_all cs w))) = 200 \/
   status (fst (get_videos (serve_all cs w))) = 404).
Proof.
  intros Ht Hf.
  assert (H : listable (serve_all cs w)) by (apply serve_all_listable; split; assumption).
  split; [exact (proj1 H)|apply listable_answers, H].
Qed.

Lemma empty_bucket_titled : titled empty_bucket.
Proof. intros id d H. cbn in H. rewrite lookup_empty in H. discriminate H. Qed.

Lemma titles_never_go_missing_witness :
  titled (bucket (serve_all [PostUpload (upload_request (Some "Holiday") (Some clip));
                             PutVideo (put_request first_id (Some "") (Some clip));
                             PutVideo (put_request "000000000000000000000011" (Some "Beach") None);
                             DeleteVideo (range_request unknown_id None)]
                    (world_of empty_bucket))) /\
  (status (fst (get_videos
     (serve_all [PostUpload (upload_request (Some "Holiday") (Some clip));
                 PutVideo (put_request first_id (Some "") (Some clip));
                 PutVideo (put_request "000000000000000000000011" (Some "Beach") None);
                 DeleteVideo (range_request unknown_id None)]
        (world_of empty_bucket)))) = 200 \/
   status (fst (get_videos
     (serve_all [PostUpload (upload_request (Some "Holiday") (Some clip));
                 PutVideo (put_request first_id (Some "") (Some clip));
                 PutVideo (put_request "000000000000000000000011" (Some "Beach") None);
                 DeleteVideo (range_request unknown_id None)]
        (world_of empty_bucket)))) = 404).
Proof.
  apply (titles_never_go_missing _ (world_of empty_bucket)).
  - exact empty_bucket_titled.
  - reflexivity.
Defined.

(** ** Upload, then list *)

Lemma get_videos_listable (w : World) (id : string) (d : FileDoc) :
  listable w ->
  files (bucket w) !! id = Some d ->
  exists (vs : list VideoEntry) (md : Metadata),
    fst (get_videos w) = json 200 (ListBody vs) /\
    file_metadata d = Some md /\
    entry_of id d (title md) ∈ vs.
Proof.
  intros [Htitled Hfind] Hd. rewrite get_videos_cases, Hfind.
  assert (Hin : (id, d) ∈ map_to_list (files (bucket w))) by apply elem_of_map_to_list, Hd.
  destruct (map_to_list (files (bucket w))) as [|p fs] eqn:E; [inversion Hin|].
  destruct (video_list_titled (p :: fs) (log OpFindAll w)) as (vs & -> & Hrel).
  { intros [i x] Hp. rewrite <- E in Hp. apply elem_of_map_to_list in Hp.
    destruct (Htitled i x Hp) as (md & Hmd & _). exists md. exact Hmd. }
  apply list_elem_of_lookup in Hin as [i Hi].
  destruct (Forall2_lookup_l _ _ _ _ _ Hrel Hi) as (e & He & md & Hmd & ->).
  exists vs, md. split; [reflexivity|]. split; [exact Hmd|].
  apply (list_elem_of_lookup_2 _ i), He.
Qed.

(** What was uploaded is listed: after a successful upload into a bucket
    whose documents all have titles, GET /videos answers 200 and lists the
    new blob under the identifier the upload answered with, with the title
    as [filename], the number of bytes uploaded as [length], no content
    type, and its streaming URL. *)
Theorem upload_then_listed (req : Request) (w : World) (t : string) (f : UploadedFile) :
  titled (bucket w) ->
  faults w = no_faults ->
  JS.truthy_value (body_title req) = Some t ->
  req_file req = Some f ->
  exists vs : list VideoEntry,
    fst (get_videos (snd (post_upload req w))) = json 200 (ListBody vs) /\
    {| entry_id := gen_id w (uploads w);
       entry_filename := t;
       entry_length := Z.of_nat (length (buffer f));
       entry_contentType := None;
       entry_uploadDate := now w;
       entry_videoUrl := video_url (gen_id w (uploads w)) |} ∈ vs.
Proof.
  intros Htitled Hfaults Ht Hf.
  assert (Hl : listable (snd (serve (PostUpload req) w))).
  { apply serve_listable. split; [exact Htitled|]. rewrite Hfaults. reflexivity. }
  cbn [serve] in Hl.
  assert (Hdoc : files (bucket (snd (post_upload req w))) !! gen_id w (uploads w) =
                 Some {| file_length := Z.of_nat (length (buffer f));
                         file_chunkSize := chunkSizeBytes;
                         file_uploadDate := now w;
                         file_filename := originalname f;
                         file_contentType := None;
                         file_metadata := Some {| title := t |} |}).
  { rewrite (post_upload_ok req w t f Ht Hf) by (rewrite Hfaults; reflexivity).
    cbn. apply lookup_insert_eq. }
  destruct (get_videos_listable _ _ _ Hl Hdoc) as (vs & md & Hr & Hmd & Hin).
  exists vs. split; [exact Hr|].
  cbn [file_metadata] in Hmd. injection Hmd as <-. exact Hin.
Qed.

Lemma upload_then_listed_witness :
  exists vs : list VideoEntry,
    fst (get_videos (snd (post_upload (upload_request (Some "Beach") (Some clip))
                            (sample_world 100)))) = json 200 (ListBody vs) /\
    {| entry_id := first_id;
       entry_filename := "Beach";
       entry_length := 3;
       entry_contentType := None;
       entry_uploadDate := 1700000000000;
       entry_videoUrl := video_url first_id |} ∈ vs.
Proof.
  apply (upload_then_listed (upload_request (Some "Beach") (Some clip)) (sample_world 100)
           "Beach" clip).
  - intros id d Hd. cbn [sample_world world_of bucket files] in Hd.
    apply lookup_singleton_Some in Hd as [_ <-].
    exists {| title := "Holiday" |}. split; [reflexivity|discriminate].
  - reflexivity.
  - reflexivity.
  - reflexivity.
Defined.
